(** * Trading assistant: signal scoring and risk management

    A shallow embedding of [src/analysis/scoring_system.py] (class
    [SignalScorer]) and [src/risk/manager.py] (class [RiskManager]).

    Numbers.  Python [float]s and NumPy [float64]s are embedded as exact
    rationals ([Q]); binary64 rounding is outside the model.  What the
    model does keep apart is the behaviour of the two kinds of numbers on
    a zero divisor: a Python [float] raises [ZeroDivisionError], a NumPy
    scalar answers [inf] or [nan] (type [np_float] below).  Rational
    equality is [Qeq] ([==]).

    Failure.  An exception leaving a method is the [Raise] case of
    [result]; methods are sequenced with the bind of that monad.

    Dictionaries.  A dict that is only looked up by key is a [gmap]; a dict
    that the code iterates over is an association list in insertion
    order, which is the order Python iterates in. *)

From Stdlib Require Import QArith Qabs Lqa Lia List.
From stdpp Require Import gmap strings.

Local Open Scope Q_scope.
Local Open Scope string_scope.

(* ===================================================================== *)
(** ** Exceptions and the error monad                                    *)
(* ===================================================================== *)

(** The exception classes a run can end with.  [UserDefined cls] stands for
    an exception class declared by the program itself, named [cls]. *)
Inductive exn : Type :=
| KeyError (key : string)
| IndexError
| ZeroDivisionError
| TypeError
| ValueError
| UserDefined (cls : string).

Inductive result (A : Type) : Type :=
| Ok (a : A)
| Raise (e : exn).
Arguments Ok {A} a.
Arguments Raise {A} e.

Definition bind {A B : Type} (m : result A) (k : A -> result B) : result B :=
  match m with
  | Ok a => k a
  | Raise e => Raise e
  end.

Notation "'let*' x ':=' m 'in' k" := (bind m (fun x => k))
  (at level 10, x name, m at level 100, k at level 200).

Definition raises {A : Type} (m : result A) : Prop := exists e, m = Raise e.

(* ===================================================================== *)
(** ** Rational comparisons as booleans                                  *)
(* ===================================================================== *)

Definition Qeqb (a b : Q) : bool := Qeq_bool a b.
Definition Qltb (a b : Q) : bool := negb (Qle_bool b a).
Definition Qgtb (a b : Q) : bool := Qltb b a.
Definition Qleb (a b : Q) : bool := Qle_bool a b.

(** Python's built-in [max] on two numbers. *)
Definition py_max (a b : Q) : Q := if Qgtb b a then b else a.

(** Division of Python floats: a zero divisor raises. *)
Definition py_div (a b : Q) : result Q :=
  if Qeqb b 0 then Raise ZeroDivisionError else Ok (a / b).

(* ===================================================================== *)
(** ** Sequences                                                         *)
(* ===================================================================== *)

(** [xs[-1]]: [IndexError] on the empty sequence. *)
Definition py_last {A : Type} (xs : list A) : result A :=
  match last xs with
  | Some x => Ok x
  | None => Raise IndexError
  end.

(** [xs[0]]. *)
Definition py_first {A : Type} (xs : list A) : result A :=
  match xs with
  | x :: _ => Ok x
  | [] => Raise IndexError
  end.

(** [xs[-n:]]: the last [n] elements, all of [xs] when it is shorter; with
    [n = 0] the slice [xs[-0:]] is [xs[0:]], the whole sequence. *)
Definition py_slice_last {A : Type} (n : nat) (xs : list A) : list A :=
  match n with
  | O => xs
  | _ => skipn (length xs - n) xs
  end.

Definition Qsum (xs : list Q) : Q := fold_right Qplus 0 xs.

Definition Qlen {A : Type} (xs : list A) : Q := inject_Z (Z.of_nat (length xs)).

(* ===================================================================== *)
(** ** NumPy scalars and reductions                                      *)
(* ===================================================================== *)

(** A [float64] result: a finite value, an infinity, or not-a-number.
    (The sign of zero is not modelled.) *)
Inductive np_float : Type :=
| Fin (q : Q)
| PInf
| NInf
| NaN.

Definition np_neg (x : np_float) : np_float :=
  match x with
  | Fin q => Fin (- q)
  | PInf => NInf
  | NInf => PInf
  | NaN => NaN
  end.

Definition np_add (x y : np_float) : np_float :=
  match x, y with
  | NaN, _ | _, NaN => NaN
  | Fin a, Fin b => Fin (a + b)
  | PInf, NInf | NInf, PInf => NaN
  | PInf, _ | _, PInf => PInf
  | NInf, _ | _, NInf => NInf
  end.

Definition np_sub (x y : np_float) : np_float := np_add x (np_neg y).

(** The infinity with the sign of [s]; [nan] when [s] is zero. *)
Definition np_signed_inf (s : Q) : np_float :=
  if Qeqb s 0 then NaN else if Qltb 0 s then PInf else NInf.

Definition np_mul (x y : np_float) : np_float :=
  match x, y with
  | NaN, _ | _, NaN => NaN
  | Fin a, Fin b => Fin (a * b)
  | Fin a, PInf | PInf, Fin a => np_signed_inf a
  | Fin a, NInf | NInf, Fin a => np_signed_inf (- a)
  | PInf, PInf | NInf, NInf => PInf
  | PInf, NInf | NInf, PInf => NInf
  end.

(** True division never raises: a warning, and [inf] or [nan]. *)
Definition np_div (x y : np_float) : np_float :=
  match x, y with
  | NaN, _ | _, NaN => NaN
  | Fin a, Fin b => if Qeqb b 0 then np_signed_inf a else Fin (a / b)
  | Fin _, _ => Fin 0
  | PInf, Fin b => if Qltb b 0 then NInf else PInf
  | NInf, Fin b => if Qltb b 0 then PInf else NInf
  | _, _ => NaN
  end.

(** Comparisons: anything involving [nan] is false. *)
Definition np_ltb (x y : np_float) : bool :=
  match x, y with
  | NaN, _ | _, NaN => false
  | Fin a, Fin b => Qltb a b
  | NInf, NInf | PInf, _ | _, NInf => false
  | NInf, _ | _, PInf => true
  end.

Definition np_gtb (x y : np_float) : bool := np_ltb y x.

Definition np_eqb (x y : np_float) : bool :=
  match x, y with
  | Fin a, Fin b => Qeqb a b
  | PInf, PInf | NInf, NInf => true
  | _, _ => false
  end.

Definition np_abs (x : np_float) : np_float :=
  match x with
  | Fin q => Fin (Qabs q)
  | PInf | NInf => PInf
  | NaN => NaN
  end.

(** The square root is the one NumPy primitive that leaves the rationals.
    The model is parametric in it; all it needs is that the root of zero
    is zero. *)
Class Numpy : Type := {
  np_sqrt : Q -> Q;
  np_sqrt_0 : forall x, x == 0 -> np_sqrt x == 0
}.

(** A computable instance: the integer square root on a grid of 10^-6. *)
Definition Qsqrt_grid (x : Q) : Q :=
  Z.sqrt (Qnum x * Zpos (Qden x) * 1000000000000) # (Qden x * 1000000).

(** [np.mean]: [nan] (and a warning) on an empty array. *)
Definition np_mean (xs : list Q) : np_float :=
  match xs with
  | [] => NaN
  | _ => Fin (Qsum xs / Qlen xs)
  end.

(** [np.std]: the population standard deviation. *)
Definition np_std `{Numpy} (xs : list Q) : np_float :=
  match xs with
  | [] => NaN
  | _ =>
      let m := Qsum xs / Qlen xs in
      Fin (np_sqrt (Qsum (map (fun x => (x - m) * (x - m)) xs) / Qlen xs))
  end.

(** A reduction applied to a scalar sees a zero-dimensional array holding
    that one value. *)
Definition np_mean_0d (x : np_float) : np_float :=
  match x with
  | Fin q => np_mean [q]
  | other => other
  end.

Definition np_std_0d `{Numpy} (x : np_float) : np_float :=
  match x with
  | Fin q => np_std [q]
  | _ => NaN
  end.

(** [np.diff]: consecutive differences. *)
Fixpoint np_diff (xs : list Q) : list Q :=
  match xs with
  | a :: (b :: _) as tl => (b - a) :: np_diff tl
  | _ => []
  end.

(** Python's built-in [sum]: a left fold starting from [0]. *)
Definition py_sum (xs : list Q) : Q := fold_left Qplus xs 0.

(** Python's built-in [min] on two numbers. *)
Definition py_min (a b : Q) : Q := if Qltb b a then b else a.

(** [np.clip(x, -1, 1)]. *)
Definition np_clip_unit (x : np_float) : np_float :=
  match x with
  | Fin q => Fin (if Qltb q (-1) then -1 else if Qgtb q 1 then 1 else q)
  | PInf => Fin 1
  | NInf => Fin (-1)
  | NaN => NaN
  end.

Definition np_sqrt_f `{Numpy} (x : np_float) : np_float :=
  match x with
  | Fin q => Fin (np_sqrt q)
  | PInf => PInf
  | _ => NaN
  end.

(** Sum of products of deviations from the means [ma], [mb]. *)
Fixpoint dev_dot (ma mb : Q) (xs ys : list Q) : Q :=
  match xs, ys with
  | x :: xs', y :: ys' => (x - ma) * (y - mb) + dev_dot ma mb xs' ys'
  | _, _ => 0
  end.

(** [np.corrcoef(x, y)[0, 1]]: the covariance matrix with [ddof = 1]
    (a non-positive divisor is replaced by [0.0]), divided by the two
    standard deviations and clipped to [-1, 1].  Arrays of different
    lengths cannot be stacked: [ValueError]. *)
Definition np_corrcoef_01 `{Numpy} (x y : list Q) : result np_float :=
  if negb (Nat.eqb (length x) (length y)) then Raise ValueError
  else
    let mx := Qsum x / Qlen x in
    let my := Qsum y / Qlen y in
    let fact := if Qleb (Qlen x - 1) 0 then 0 else Qlen x - 1 in
    let scale := np_div (Fin 1) (Fin fact) in
    let c00 := np_mul (Fin (dev_dot mx mx x x)) scale in
    let c01 := np_mul (Fin (dev_dot mx my x y)) scale in
    let c11 := np_mul (Fin (dev_dot my my y y)) scale in
    Ok (np_clip_unit (np_div (np_div c01 (np_sqrt_f c00)) (np_sqrt_f c11))).

(* ===================================================================== *)
(** ** Python values held in the untyped dicts                           *)
(* ===================================================================== *)

#[warnings="-register-all"]
Inductive pyval : Type :=
| PyFloat (q : Q)
| PyDict (d : gmap string pyval).

(** [d[key]] on a dict. *)
Definition py_getitem (d : gmap string pyval) (key : string) : result pyval :=
  match d !! key with
  | Some v => Ok v
  | None => Raise (KeyError key)
  end.

(** [v[key]] on an arbitrary value: a float is not subscriptable. *)
Definition py_subscript (v : pyval) (key : string) : result pyval :=
  match v with
  | PyDict d => py_getitem d key
  | PyFloat _ => Raise TypeError
  end.

(** A value used as an operand of [*]. *)
Definition py_number (v : pyval) : result Q :=
  match v with
  | PyFloat q => Ok q
  | PyDict _ => Raise TypeError
  end.

(* ===================================================================== *)
(** ** [RiskManager] ([src/risk/manager.py])                             *)
(* ===================================================================== *)

Record RiskManager : Type := {
  risk_per_trade : Q;
  max_portfolio_risk : Q;
  max_correlation : Q;
  stop_loss_atr_multiplier : Q
}.

(** [RiskManager.__init__]: [settings.get(key, default)]. *)
Definition RiskManager_init (settings : gmap string Q) : RiskManager :=
  {| risk_per_trade := default (2 # 100) (settings !! "risk_per_trade");
     max_portfolio_risk := default (6 # 100) (settings !! "max_portfolio_risk");
     max_correlation := default (7 # 10) (settings !! "max_correlation");
     stop_loss_atr_multiplier := default 2 (settings !! "stop_loss_atr_multiplier") |}.

Record PositionSizing : Type := {
  ps_position_size : Q;
  ps_position_value : Q;
  ps_risk_amount : Q;
  ps_risk_percent : Q
}.

Definition calculate_position_size (self : RiskManager)
    (account_balance entry_price stop_loss_price : Q) : result PositionSizing :=
  let max_risk_amount := account_balance * risk_per_trade self in
  let price_risk := Qabs (entry_price - stop_loss_price) in
  let* position_size := py_div max_risk_amount price_risk in
  let position_value := position_size * entry_price in
  Ok {| ps_position_size := position_size;
        ps_position_value := position_value;
        ps_risk_amount := max_risk_amount;
        ps_risk_percent := risk_per_trade self * 100 |}.

Record SafeLeverage : Type := {
  max_safe_leverage : Q;
  current_leverage : Q;
  is_safe : bool
}.

Definition calculate_safe_leverage (self : RiskManager)
    (account_balance position_value volatility : Q) : result SafeLeverage :=
  let* inv_vol := py_div 1 volatility in
  let max_safe_leverage := py_min 3 inv_vol in
  let* current_leverage := py_div position_value account_balance in
  Ok {| max_safe_leverage := max_safe_leverage;
        current_leverage := current_leverage;
        is_safe := Qleb current_leverage max_safe_leverage |}.

Record MarketRegime : Type := {
  regime : string;
  risk_multiplier : Q;
  mr_volatility : np_float;
  volume_ratio : np_float
}.

Definition detect_market_regime `{Numpy} (self : RiskManager)
    (price_data volume_data : list Q) : result MarketRegime :=
  let volatility := np_std price_data in
  let avg_volume := np_mean volume_data in
  let* recent_volume := py_last volume_data in
  let is_high_volatility :=
    np_gtb volatility (np_add (np_mean_0d volatility) (np_std_0d volatility)) in
  let is_high_volume := np_gtb (Fin recent_volume) (np_mul avg_volume (Fin (15 # 10))) in
  let '(regime, risk_multiplier) :=
    if is_high_volatility && is_high_volume then ("high_risk", 5 # 10)
    else if is_high_volatility then ("volatile", 7 # 10)
    else if is_high_volume then ("high_volume", 8 # 10)
    else ("normal", 1) in
  Ok {| regime := regime;
        risk_multiplier := risk_multiplier;
        mr_volatility := volatility;
        volume_ratio := np_div (Fin recent_volume) avg_volume |}.

(** A held position: the dict [{'value': v}]. *)
Record Position : Type := { value : Q }.

Record HeatMap : Type := {
  hm_high_risk : list string;
  hm_medium_risk : list string;
  hm_low_risk : list string
}.

(** The body of the loop over [positions.items()]. *)
Fixpoint heat_map_loop (total_exposure : Q) (positions : list (string * Position))
    (risk_map : HeatMap) : result HeatMap :=
  match positions with
  | [] => Ok risk_map
  | (symbol, pos) :: rest =>
      let* risk_ratio := py_div (value pos) total_exposure in
      let risk_map' :=
        if Qgtb risk_ratio (2 # 10) then
          {| hm_high_risk := (hm_high_risk risk_map ++ [symbol])%list;
             hm_medium_risk := hm_medium_risk risk_map;
             hm_low_risk := hm_low_risk risk_map |}
        else if Qgtb risk_ratio (1 # 10) then
          {| hm_high_risk := hm_high_risk risk_map;
             hm_medium_risk := (hm_medium_risk risk_map ++ [symbol])%list;
             hm_low_risk := hm_low_risk risk_map |}
        else
          {| hm_high_risk := hm_high_risk risk_map;
             hm_medium_risk := hm_medium_risk risk_map;
             hm_low_risk := (hm_low_risk risk_map ++ [symbol])%list |} in
      heat_map_loop total_exposure rest risk_map'
  end.

Definition generate_portfolio_heat_map (self : RiskManager)
    (positions : list (string * Position)) : result HeatMap :=
  let risk_map := {| hm_high_risk := []; hm_medium_risk := []; hm_low_risk := [] |} in
  let total_exposure := py_sum (map (fun kv => value (snd kv)) positions) in
  heat_map_loop total_exposure positions risk_map.

Record SentimentAdjustment : Type := {
  original_risk : Q;
  adjusted_risk : Q;
  sentiment_score : Q;
  sa_risk_multiplier : Q
}.

(** [sentiment_data[source]['score']], used as a number. *)
Definition source_score (sentiment_data : gmap string pyval) (source : string) : result Q :=
  let* entry := py_getitem sentiment_data source in
  let* score := py_subscript entry "score" in
  py_number score.

Definition adjust_risk_by_sentiment (self : RiskManager) (base_risk : Q)
    (sentiment_data : gmap string pyval) : result SentimentAdjustment :=
  let w_news := 3 # 10 in
  let w_social := 3 # 10 in
  let w_technical := 4 # 10 in
  let* news := source_score sentiment_data "news_sentiment" in
  let* social := source_score sentiment_data "social_sentiment" in
  let* technical := source_score sentiment_data "technical_sentiment" in
  let weighted_score := news * w_news + social * w_social + technical * w_technical in
  let risk_multiplier :=
    if Qgtb weighted_score (8 # 10) then 12 # 10
    else if Qltb weighted_score (2 # 10) then 6 # 10
    else 1 in
  let adjusted_risk := base_risk * risk_multiplier in
  Ok {| original_risk := base_risk;
        adjusted_risk := adjusted_risk;
        sentiment_score := weighted_score;
        sa_risk_multiplier := risk_multiplier |}.

(** The dict returned by [calculate_correlation_risk]; [correlations] lists
    the entries in the order they are assigned. *)
Record CorrelationRisk : Type := {
  correlations : list (string * np_float);
  high_correlation_pairs : list (string * string * np_float);
  cr_max_correlation : Q
}.

(** The inner loop [for j in range(i+1, len(assets))] for a fixed [asset1]. *)
Fixpoint correlation_inner `{Numpy} (self : RiskManager)
    (asset1 : string) (returns1 : list Q) (others : list (string * list Q))
    (acc : list (string * np_float) * list (string * string * np_float))
    : result (list (string * np_float) * list (string * string * np_float)) :=
  match others with
  | [] => Ok acc
  | (asset2, returns2) :: rest =>
      let* corr := np_corrcoef_01 returns1 returns2 in
      let pair_key := String.append asset1 (String.append "-" asset2) in
      let correlations := (fst acc ++ [(pair_key, corr)])%list in
      let high_corr_pairs :=
        if np_gtb (np_abs corr) (Fin (max_correlation self))
        then (snd acc ++ [(asset1, asset2, corr)])%list
        else snd acc in
      correlation_inner self asset1 returns1 rest (correlations, high_corr_pairs)
  end.

(** The outer loop [for i in range(len(assets))]. *)
Fixpoint correlation_outer `{Numpy} (self : RiskManager)
    (assets : list (string * list Q))
    (acc : list (string * np_float) * list (string * string * np_float))
    : result (list (string * np_float) * list (string * string * np_float)) :=
  match assets with
  | [] => Ok acc
  | (asset1, returns1) :: rest =>
      let* acc' := correlation_inner self asset1 returns1 rest acc in
      correlation_outer self rest acc'
  end.

Definition calculate_correlation_risk `{Numpy} (self : RiskManager)
    (asset_returns : list (string * list Q)) : result CorrelationRisk :=
  let* acc := correlation_outer self asset_returns ([], []) in
  Ok {| correlations := fst acc;
        high_correlation_pairs := snd acc;
        cr_max_correlation := max_correlation self |}.

Record MarketData : Type := {
  prices : list Q;
  volumes : list Q
}.

(** [portfolio_data]: a dict of which the keys ['positions'] and ['returns']
    are read; [None] is an absent key. *)
Record PortfolioData : Type := {
  positions : option (list (string * Position));
  returns_by_asset : option (list (string * list Q))
}.

Definition py_key {A : Type} (key : string) (field : option A) : result A :=
  match field with
  | Some v => Ok v
  | None => Raise (KeyError key)
  end.

Record Scores : Type := {
  sc_market_regime : Q;
  sc_sentiment : Q;
  sc_concentration : Q;
  sc_correlation : Q
}.

Record RiskScore : Type := {
  score : Q;
  level : string;
  components : Scores
}.

(** The regime-to-score table; [.get(regime, 50)] supplies the default. *)
Definition regime_scores : gmap string Q :=
  {[ "high_risk" := 20; "volatile" := 40; "high_volume" := 60; "normal" := 80 ]}.

Definition risk_level (final_score : Q) : string :=
  if Qltb final_score 40 then "high"
  else if Qltb final_score 70 then "medium"
  else "low".

Definition calculate_risk_score `{Numpy} (self : RiskManager)
    (market_data : MarketData) (sentiment_data : gmap string pyval)
    (portfolio_data : PortfolioData) : result RiskScore :=
  let* market_regime :=
    detect_market_regime self (prices market_data) (volumes market_data) in
  let s_market_regime := default 50 (regime_scores !! regime market_regime) in
  let* sentiment_adj := adjust_risk_by_sentiment self 1 sentiment_data in
  let s_sentiment := sentiment_score sentiment_adj * 100 in
  let* held := py_key "positions" (positions portfolio_data) in
  let* heat_map := generate_portfolio_heat_map self held in
  let concentration_risk := Qlen (hm_high_risk heat_map) * 20 in
  let s_concentration := py_max 0 (100 - concentration_risk) in
  let* asset_returns := py_key "returns" (returns_by_asset portfolio_data) in
  let* correlation_data := calculate_correlation_risk self asset_returns in
  let correlation_risk := Qlen (high_correlation_pairs correlation_data) * 15 in
  let s_correlation := py_max 0 (100 - correlation_risk) in
  let final_score :=
    py_sum [ s_market_regime * (3 # 10);
             s_sentiment * (2 # 10);
             s_concentration * (25 # 100);
             s_correlation * (25 # 100) ] in
  Ok {| score := final_score;
        level := risk_level final_score;
        components := {| sc_market_regime := s_market_regime;
                         sc_sentiment := s_sentiment;
                         sc_concentration := s_concentration;
                         sc_correlation := s_correlation |} |}.

(** One period of the history: the dict with keys ['market'], ['sentiment'],
    ['portfolio'], ['price'] and ['next_price']. *)
Record PeriodRecord : Type := {
  market : MarketData;
  sentiment : gmap string pyval;
  portfolio : PortfolioData;
  price : Q;
  next_price : Q
}.

Record TradeRecord : Type := {
  tr_date : string;
  tr_risk_score : RiskScore;
  tr_position_size : Q;
  tr_pnl : Q;
  tr_capital : Q
}.

Record RiskAdjustment : Type := {
  ra_date : string;
  ra_original_size : Q;
  ra_adjusted_size : Q;
  ra_risk_score : RiskScore
}.

Record Metrics : Type := {
  final_capital : Q;
  total_return : Q;
  max_drawdown : Q;
  sharpe_ratio : np_float;
  risk_adjusted_return : Q
}.

Record BacktestResult : Type := {
  trades : list TradeRecord;
  metrics : Metrics;
  risk_adjustments : list RiskAdjustment
}.

(** The loop of [_calculate_max_drawdown] over the capital curve, with the
    running [peak] and [max_dd]. *)
Fixpoint drawdown_loop (capitals : list Q) (peak max_dd : Q) : result Q :=
  match capitals with
  | [] => Ok max_dd
  | capital :: rest =>
      let peak' := if Qgtb capital peak then capital else peak in
      let* dd := py_div (peak' - capital) peak' in
      let max_dd' := if Qgtb dd max_dd then dd else max_dd in
      drawdown_loop rest peak' max_dd'
  end.

Definition _calculate_max_drawdown (self : RiskManager) (trades : list TradeRecord)
    : result Q :=
  let capitals := map tr_capital trades in
  let* peak := py_first capitals in
  let* max_dd := drawdown_loop capitals peak 0 in
  Ok (max_dd * 100).

(** [[f(t, prev) for t, prev in zip(trades[1:], trades[:-1])]]: the period
    returns of consecutive trade records. *)
Fixpoint period_returns (capitals : list Q) : result (list Q) :=
  match capitals with
  | prev :: (t :: _) as tl =>
      let* r := py_div (t - prev) prev in
      let* rs := period_returns tl in
      Ok (r :: rs)
  | _ => Ok []
  end.

Definition _calculate_sharpe_ratio `{Numpy} (self : RiskManager)
    (trades : list TradeRecord) : result np_float :=
  let* rets := period_returns (map tr_capital trades) in
  match rets with
  | [] => Ok (Fin 0)
  | _ =>
      let avg_return := np_mean rets in
      let std_return := np_std rets in
      if np_eqb std_return (Fin 0) then Ok (Fin 0)
      else Ok (np_mul (np_div avg_return std_return) (Fin (np_sqrt 252)))
  end.

Definition _calculate_risk_adjusted_return (self : RiskManager)
    (trades : list TradeRecord) : result Q :=
  let* last_trade := py_last trades in
  let* first_trade := py_first trades in
  let* total_return := py_div (tr_capital last_trade - tr_capital first_trade)
                              (tr_capital first_trade) in
  let* max_dd := _calculate_max_drawdown self trades in
  if Qeqb max_dd 0 then Ok 0
  else py_div total_return (max_dd / 100).

(** The loop of [backtest_risk_strategy] over [historical_data.items()],
    threading the running [capital] and the two result lists. *)
Fixpoint backtest_loop `{Numpy} (self : RiskManager)
    (history : list (string * PeriodRecord)) (capital : Q)
    (trades : list TradeRecord) (adjustments : list RiskAdjustment)
    : result (Q * list TradeRecord * list RiskAdjustment) :=
  match history with
  | [] => Ok (capital, trades, adjustments)
  | (date, data) :: rest =>
      let* risk_score :=
        calculate_risk_score self (market data) (sentiment data) (portfolio data) in
      let* position_size :=
        calculate_position_size self capital (price data) (price data * (95 # 100)) in
      let adjusted_size := ps_position_size position_size * (score risk_score / 100) in
      let pnl := next_price data - price data in
      let trade_result := adjusted_size * pnl in
      let capital' := capital + trade_result in
      backtest_loop self rest capital'
        (trades ++ [ {| tr_date := date;
                        tr_risk_score := risk_score;
                        tr_position_size := adjusted_size;
                        tr_pnl := trade_result;
                        tr_capital := capital' |} ])%list
        (adjustments ++ [ {| ra_date := date;
                             ra_original_size := ps_position_size position_size;
                             ra_adjusted_size := adjusted_size;
                             ra_risk_score := risk_score |} ])%list
  end.

Definition backtest_risk_strategy `{Numpy} (self : RiskManager)
    (historical_data : list (string * PeriodRecord))
    (strategy_params : gmap string Q) : result BacktestResult :=
  let initial_capital := default 10000 (strategy_params !! "initial_capital") in
  let* final := backtest_loop self historical_data initial_capital [] [] in
  let '(capital, trades, adjustments) := final in
  let* growth := py_div (capital - initial_capital) initial_capital in
  let* max_dd := _calculate_max_drawdown self trades in
  let* sharpe := _calculate_sharpe_ratio self trades in
  let* rar := _calculate_risk_adjusted_return self trades in
  Ok {| trades := trades;
        metrics := {| final_capital := capital;
                      total_return := growth * 100;
                      max_drawdown := max_dd;
                      sharpe_ratio := sharpe;
                      risk_adjusted_return := rar |};
        risk_adjustments := adjustments |}.

(* ===================================================================== *)
(** ** [SignalScorer] ([src/analysis/scoring_system.py])                 *)
(* ===================================================================== *)

(** What the predictor hands back: three sequences over the horizon. *)
Record ModelPrediction : Type := {
  price_predictions : list Q;
  confidence_scores : list Q;
  volatility_estimates : list Q
}.

(** The scorer's configuration.  The predictive model is a collaborator of
    which only [forward] is called; it is a field of the scorer, free to
    return any prediction or to raise. *)
Record SignalScorer : Type := {
  transformer_forward : list Q -> result ModelPrediction;
  risk_manager : RiskManager;
  confidence_threshold : Q;
  min_risk_reward : Q
}.

(** [SignalScorer.__init__] with its three keyword parameters. *)
Definition SignalScorer_init (forward : list Q -> result ModelPrediction)
    (confidence_threshold min_risk_reward max_portfolio_risk : Q) : SignalScorer :=
  {| transformer_forward := forward;
     risk_manager := RiskManager_init
       {[ "risk_per_trade" := max_portfolio_risk;
          "max_portfolio_risk" := max_portfolio_risk * 3 ]};
     confidence_threshold := confidence_threshold;
     min_risk_reward := min_risk_reward |}.

(** The defaults of [__init__]: 0.7, 2.0 and 0.02. *)
Definition SignalScorer_default (forward : list Q -> result ModelPrediction)
    : SignalScorer :=
  SignalScorer_init forward (7 # 10) 2 (2 # 100).

Definition _calculate_rsi (self : SignalScorer) (prices : list Q) (period : nat)
    : np_float :=
  let deltas := np_diff prices in
  let gain := map (fun d => if Qgtb d 0 then d else 0) deltas in
  let loss := map (fun d => if Qltb d 0 then - d else 0) deltas in
  let avg_gain := np_mean (py_slice_last period gain) in
  let avg_loss := np_mean (py_slice_last period loss) in
  if np_eqb avg_loss (Fin 0) then Fin 100
  else
    let rs := np_div avg_gain avg_loss in
    np_sub (Fin 100) (np_div (Fin 100) (np_add (Fin 1) rs)).

Definition _calculate_trend_score (self : SignalScorer) (prices : list Q) : result Q :=
  let sma_20 := np_mean (py_slice_last 20 prices) in
  let sma_50 := np_mean (py_slice_last 50 prices) in
  let* current_price := py_last prices in
  if np_gtb (Fin current_price) sma_20 && np_gtb sma_20 sma_50 then Ok 1
  else if np_ltb (Fin current_price) sma_20 && np_ltb sma_20 sma_50 then Ok 0
  else Ok (1 # 2).

Definition _calculate_technical_score (self : SignalScorer)
    (price_data volume_data : list Q) : result Q :=
  let rsi := _calculate_rsi self price_data 14 in
  let rsi_score :=
    if np_ltb rsi (Fin 30) then 1 else if np_gtb rsi (Fin 70) then 0 else 1 # 2 in
  let vol_avg := np_mean (py_slice_last 20 volume_data) in
  let* vol_current := py_last volume_data in
  let volume_score :=
    if np_gtb (Fin vol_current) (np_mul vol_avg (Fin (15 # 10))) then 1 else 1 # 2 in
  let* trend_score := _calculate_trend_score self price_data in
  Ok (rsi_score * (3 # 10) + volume_score * (3 # 10) + trend_score * (4 # 10)).

Definition _calculate_position_size (self : SignalScorer)
    (price stop_loss risk_score : Q) : result Q :=
  let risk_amount := 100 * (risk_per_trade (risk_manager self) * (risk_score / 100)) in
  let price_risk := Qabs (price - stop_loss) in
  py_div risk_amount price_risk.

(** The dict returned by [_combine_signals]; [None] is Python's [None]. *)
Record Signal : Type := {
  action : string;
  confidence : Q;
  target_price : option Q;
  stop_loss : option Q;
  risk_reward : Q;
  position_size : Q
}.

Definition _combine_signals (self : SignalScorer)
    (price predicted_price confidence volatility technical_score risk_score : Q)
    : result Signal :=
  let* price_change := py_div (predicted_price - price) price in
  if Qltb confidence (confidence_threshold self) then
    Ok {| action := "WAIT";
          confidence := confidence;
          target_price := None;
          stop_loss := None;
          risk_reward := 0;
          position_size := 0 |}
  else
    let stop_loss :=
      if Qgtb price_change 0 then price * (1 - volatility) else price * (1 + volatility) in
    let risk := Qabs (price - stop_loss) in
    let target :=
      if Qgtb price_change 0 then price + risk * min_risk_reward self
      else price - risk * min_risk_reward self in
    let* risk_reward := py_div (Qabs (target - price)) (Qabs (stop_loss - price)) in
    let final_score :=
      confidence * (3 # 10) + technical_score * (3 # 10) + (risk_score / 100) * (4 # 10) in
    let action :=
      if Qgtb price_change volatility && Qgtb final_score (7 # 10) then "BUY"
      else if Qltb price_change (- volatility) && Qgtb final_score (7 # 10) then "SELL"
      else "WAIT" in
    let* position_size := _calculate_position_size self price stop_loss risk_score in
    Ok {| action := action;
          confidence := final_score;
          target_price := Some target;
          stop_loss := Some stop_loss;
          risk_reward := risk_reward;
          position_size := position_size |}.

Record Analysis : Type := {
  an_transformer_confidence : Q;
  an_technical_score : Q;
  an_risk_score : Q;
  an_volatility : Q
}.

Record TradeSignal : Type := {
  ts_symbol : string;
  ts_signal : string;
  ts_confidence : Q;
  ts_target_price : option Q;
  ts_stop_loss : option Q;
  ts_risk_reward : Q;
  ts_position_size : Q;
  ts_analysis : Analysis
}.

(** [generate_signal], as awaited by its caller: the exception its body
    raises is the one the [await] delivers.  The sentiment argument is the
    dict [{'score': technical_score}] and the portfolio argument is
    [{'positions': {}}]; [additional_features] is never read. *)
Definition generate_signal `{Numpy} (self : SignalScorer) (symbol : string)
    (price_data volume_data : list Q) (additional_features : option (gmap string pyval))
    : result TradeSignal :=
  let* transformer_prediction := transformer_forward self price_data in
  let predicted_prices := price_predictions transformer_prediction in
  let confidences := confidence_scores transformer_prediction in
  let volatilities := volatility_estimates transformer_prediction in
  let* technical_score := _calculate_technical_score self price_data volume_data in
  let* risk_assessment :=
    calculate_risk_score (risk_manager self)
      {| prices := price_data; volumes := volume_data |}
      {[ "score" := PyFloat technical_score ]}
      {| positions := Some []; returns_by_asset := None |} in
  let* price := py_last price_data in
  let* predicted_price := py_last predicted_prices in
  let* confidence_last := py_last confidences in
  let* volatility_last := py_last volatilities in
  let* signal :=
    _combine_signals self price predicted_price confidence_last volatility_last
      technical_score (score risk_assessment) in
  Ok {| ts_symbol := symbol;
        ts_signal := action signal;
        ts_confidence := confidence signal;
        ts_target_price := target_price signal;
        ts_stop_loss := stop_loss signal;
        ts_risk_reward := risk_reward signal;
        ts_position_size := position_size signal;
        ts_analysis := {| an_transformer_confidence := confidence_last;
                          an_technical_score := technical_score;
                          an_risk_score := score risk_assessment;
                          an_volatility := volatility_last |} |}.

(* ===================================================================== *)
(** ** [TradingTransformer.get_trading_signal] ([src/models/transformer.py]) *)
(* ===================================================================== *)

(** The attributes of the model that [get_trading_signal] reads. *)
Record TradingTransformer : Type := {
  tt_input_size : nat;
  tt_confidence_threshold : Q;
  tt_prediction_horizon : nat
}.

(** The dict returned by [get_trading_signal]; the HOLD dict of the early
    return has no ['volatility'] and no ['prediction_minutes_ahead'] key. *)
Record TransformerSignal : Type := {
  gts_signal : string;
  gts_confidence : Q;
  gts_target_price : Q;
  gts_volatility : option Q;
  gts_prediction_minutes_ahead : option nat
}.

(** [(confidence > threshold).nonzero()[0][0]]: the first index whose
    confidence exceeds the threshold; [None] when the mask has no true
    entry ([not mask.any()]). *)
Fixpoint first_confident (threshold : Q) (confidence : list Q) : option nat :=
  match confidence with
  | [] => None
  | c :: rest =>
      if Qgtb c threshold then Some O
      else match first_confident threshold rest with
           | Some i => Some (S i)
           | None => None
           end
  end.

(** [xs[i].item()] for a non-negative index. *)
Definition py_index {A : Type} (xs : list A) (i : nat) : result A :=
  match nth_error xs i with
  | Some x => Ok x
  | None => Raise IndexError
  end.

(** The three sequences are the squeezed tensors of a batch of one (a
    horizon of at least two steps, so that squeezing leaves one axis). *)
Definition get_trading_signal (self : TradingTransformer)
    (predictions : ModelPrediction) (current_price : Q) : result TransformerSignal :=
  let predicted := price_predictions predictions in
  let confidences := confidence_scores predictions in
  let volatilities := volatility_estimates predictions in
  match first_confident (tt_confidence_threshold self) confidences with
  | None =>
      Ok {| gts_signal := "HOLD";
            gts_confidence := 0;
            gts_target_price := current_price;
            gts_volatility := None;
            gts_prediction_minutes_ahead := None |}
  | Some first_confident_idx =>
      let* predicted_price := py_index predicted first_confident_idx in
      let* conf_score := py_index confidences first_confident_idx in
      let* vol_estimate := py_index volatilities first_confident_idx in
      let* price_change := py_div (predicted_price - current_price) current_price in
      let signal :=
        if Qgtb price_change vol_estimate then "BUY"
        else if Qltb price_change (- vol_estimate) then "SELL"
        else "HOLD" in
      Ok {| gts_signal := signal;
            gts_confidence := conf_score;
            gts_target_price := predicted_price;
            gts_volatility := Some vol_estimate;
            gts_prediction_minutes_ahead := Some (first_confident_idx + 1)%nat |}
  end.

(* ===================================================================== *)
(** ** [TradingDataset] ([src/models/data_pipeline.py])                  *)
(* ===================================================================== *)

(** The dataset after [_prepare_data]: the tensor [data] as a list of rows,
    a row being its column 0 (the scaled price) and its further columns
    (volume and technical features).  The two window sizes are the
    non-negative ints given to the constructor. *)
Record TradingDataset : Type := {
  ds_data : list (Q * list Q);
  ds_sequence_length : nat;
  ds_prediction_horizon : nat
}.

(** [xs[a:b]] for non-negative bounds: clamped to the sequence. *)
Definition py_slice {A : Type} (a b : nat) (xs : list A) : list A :=
  firstn (b - a) (skipn a xs).

(** [__len__]: may be negative when the data is shorter than one sample. *)
Definition TradingDataset_len (self : TradingDataset) : Z :=
  (Z.of_nat (length (ds_data self)) - Z.of_nat (ds_sequence_length self)
   - Z.of_nat (ds_prediction_horizon self))%Z.

(** [__getitem__] at a non-negative index, as a sampler supplies it: the
    input rows and the target prices that follow them. *)
Definition TradingDataset_getitem (self : TradingDataset) (idx : nat)
    : list (Q * list Q) * list Q :=
  let x := py_slice idx (idx + ds_sequence_length self) (ds_data self) in
  let y := map fst (py_slice (idx + ds_sequence_length self)
                             (idx + ds_sequence_length self + ds_prediction_horizon self)
                             (ds_data self)) in
  (x, y).

(* ===================================================================== *)
(** ** [SentimentAnalysis] ([src/analysis/sentiment.py])                 *)
(* ===================================================================== *)

(** The table of [_convert_tv_recommendation]; [.get(recommendation, 0.5)]. *)
Definition tv_recommendations : gmap string Q :=
  {[ "STRONG_BUY" := 1; "BUY" := 3 # 4; "NEUTRAL" := 1 # 2;
     "SELL" := 1 # 4; "STRONG_SELL" := 0 ]}.

Definition _convert_tv_recommendation (recommendation : string) : Q :=
  default (1 # 2) (tv_recommendations !! recommendation).

(** What [TA_Handler.get_analysis] hands back, as far as it is read. *)
Record TVAnalysis : Type := {
  tv_summary : gmap string string;
  tv_oscillators : gmap string pyval;
  tv_moving_averages : gmap string pyval
}.

(** The dict returned by [_analyze_trading_view]: [indicators] is [None] for
    the empty dict of the fallback. *)
Record TVSentiment : Type := {
  tvs_score : Q;
  tvs_indicators : option (gmap string pyval * gmap string pyval)
}.

(** The whole body sits in [try ... except Exception], so the method has no
    raising case.  [get_analysis] is the TradingView collaborator, called
    with the screener and the exchange chosen from the asset type. *)
Definition _analyze_trading_view
    (get_analysis : string -> string -> string -> result TVAnalysis)
    (symbol asset_type : string) : TVSentiment :=
  let screener := if String.eqb asset_type "CRYPTO" then "crypto" else "america" in
  let exchange := if String.eqb asset_type "CRYPTO" then "COINBASE" else "NYSE" in
  let attempt :=
    let* analysis := get_analysis symbol screener exchange in
    let* recommendation :=
      match tv_summary analysis !! "RECOMMENDATION" with
      | Some r => Ok r
      | None => Raise (KeyError "RECOMMENDATION")
      end in
    Ok {| tvs_score := _convert_tv_recommendation recommendation;
          tvs_indicators := Some (tv_oscillators analysis, tv_moving_averages analysis) |} in
  match attempt with
  | Ok r => r
  | Raise _ => {| tvs_score := 0; tvs_indicators := None |}
  end.

(** The dict returned by [_analyze_reddit]. *)
Record RedditSentiment : Type := {
  rs_score : Q;
  rs_mentions : nat;
  rs_subreddits : list string
}.

(** [posts_seen subreddit symbol] is the number of posts the search of one
    subreddit yields before it ends or raises (the exception is caught and
    printed); [lower] is [str.lower].  [sentiment_sum] is never assigned
    after its initialisation to 0. *)
Definition _analyze_reddit (lower : string -> string)
    (posts_seen : string -> string -> nat) (symbol asset_type : string)
    : result RedditSentiment :=
  let subreddits :=
    if String.eqb asset_type "CRYPTO"
    then ["cryptocurrency"; "CryptoMarkets"; lower symbol]
    else ["stocks"; "wallstreetbets"; "investing"] in
  let mentions :=
    fold_left (fun m subreddit_name => (m + posts_seen subreddit_name symbol)%nat)
              subreddits O in
  let sentiment_sum := 0 in
  let* score := py_div sentiment_sum (inject_Z (Z.of_nat (Nat.max mentions 1))) in
  Ok {| rs_score := score; rs_mentions := mentions; rs_subreddits := subreddits |}.

(** The dict returned by [_analyze_social]. *)
Record SocialSentiment : Type := {
  ss_score : Q;
  ss_mentions : nat;
  ss_sources : list string;
  ss_subreddits_analyzed : list string
}.

Definition _analyze_social (lower : string -> string)
    (posts_seen : string -> string -> nat) (symbol asset_type : string)
    : result SocialSentiment :=
  let* reddit_sentiment := _analyze_reddit lower posts_seen symbol asset_type in
  Ok {| ss_score := rs_score reddit_sentiment;
        ss_mentions := rs_mentions reddit_sentiment;
        ss_sources := ["Reddit"];
        ss_subreddits_analyzed := rs_subreddits reddit_sentiment |}.

(* ===================================================================== *)
(** ** [TechnicalAnalysis] ([src/analysis/technical.py])                 *)
(* ===================================================================== *)

(** A pandas [Series] of floats, and a frame or dict of named series. *)
Definition series : Type := list np_float.

Definition np_leb (x y : np_float) : bool := np_ltb x y || np_eqb x y.
Definition np_geb (x y : np_float) : bool := np_leb y x.

(** [data[key]]. *)
Definition series_getitem (data : gmap string series) (key : string) : result series :=
  match data !! key with
  | Some s => Ok s
  | None => Raise (KeyError key)
  end.

(** [s.iloc[-1]] and [s.iloc[-2]]. *)
Definition iloc_last (s : series) : result np_float := py_last s.

Definition iloc_second_last (s : series) : result np_float :=
  match rev s with
  | _ :: x :: _ => Ok x
  | _ => Raise IndexError
  end.

(** The indicator library and the rolling mean, as [analyze] calls them. *)
Record Indicators : Type := {
  ta_rsi : series -> result series;
  ta_macd_diff : series -> result series;
  ta_bollinger_hband : series -> result series;
  ta_bollinger_lband : series -> result series;
  ta_rolling_mean : nat -> series -> result series
}.

Definition analyze (ta : Indicators) (df : gmap string series)
    : result (gmap string series) :=
  let* close := series_getitem df "close" in
  let* rsi := ta_rsi ta close in
  let results := <[ "rsi" := rsi ]> (∅ : gmap string series) in
  let* close := series_getitem df "close" in
  let* macd := ta_macd_diff ta close in
  let results := <[ "macd" := macd ]> results in
  let* close := series_getitem df "close" in
  let* upper := ta_bollinger_hband ta close in
  let results := <[ "bb_upper" := upper ]> results in
  let* lower := ta_bollinger_lband ta close in
  let results := <[ "bb_lower" := lower ]> results in
  let* close := series_getitem df "close" in
  let* sma_20 := ta_rolling_mean ta 20 close in
  let results := <[ "sma_20" := sma_20 ]> results in
  let* close := series_getitem df "close" in
  let* sma_50 := ta_rolling_mean ta 50 close in
  let results := <[ "sma_50" := sma_50 ]> results in
  Ok results.

(** A signal tuple [(side, reason, value)]. *)
Definition TASignal : Type := string * string * np_float.

Definition check_signals (data : gmap string series) : result (list TASignal) :=
  let signals : list TASignal := [] in
  (* RSI signals *)
  let* rsi := series_getitem data "rsi" in
  let* last_rsi := iloc_last rsi in
  let signals :=
    if np_ltb last_rsi (Fin 30) then (signals ++ [("BUY", "RSI oversold", last_rsi)])%list
    else if np_gtb last_rsi (Fin 70)
         then (signals ++ [("SELL", "RSI overbought", last_rsi)])%list
         else signals in
  (* MACD signals: [and] evaluates its right operand only when the left holds *)
  let macd_last := let* macd := series_getitem data "macd" in iloc_last macd in
  let macd_prev := let* macd := series_getitem data "macd" in iloc_second_last macd in
  let* m := macd_last in
  let* crossed_up :=
    if np_gtb m (Fin 0) then (let* p := macd_prev in Ok (np_leb p (Fin 0))) else Ok false in
  let* signals :=
    if crossed_up then
      let* v := macd_last in Ok (signals ++ [("BUY", "MACD crossover", v)])%list
    else
      let* m := macd_last in
      let* crossed_down :=
        if np_ltb m (Fin 0) then (let* p := macd_prev in Ok (np_geb p (Fin 0)))
        else Ok false in
      if crossed_down then
        let* v := macd_last in Ok (signals ++ [("SELL", "MACD crossover", v)])%list
      else Ok signals in
  (* Bollinger Bands signals *)
  let* close := series_getitem data "close" in
  let* last_close := iloc_last close in
  let* lower := series_getitem data "bb_lower" in
  let* lower_last := iloc_last lower in
  if np_ltb last_close lower_last then
    Ok (signals ++ [("BUY", "Price below lower BB", last_close)])%list
  else
    let* upper := series_getitem data "bb_upper" in
    let* upper_last := iloc_last upper in
    if np_gtb last_close upper_last then
      Ok (signals ++ [("SELL", "Price above upper BB", last_close)])%list
    else Ok signals.

(* ===================================================================== *)
(** ** [analyze_trade_risk] ([src/main.py])                              *)
(* ===================================================================== *)

(** The placeholder [get_market_data]: empty price and volume lists. *)
Definition get_market_data (symbol : string) : MarketData :=
  {| prices := []; volumes := [] |}.

(** The placeholder [get_portfolio_data]: empty ['positions'] and ['returns']. *)
Definition get_portfolio_data : PortfolioData :=
  {| positions := Some []; returns_by_asset := Some [] |}.

Record TradeRiskAnalysis : Type := {
  tra_risk_score : RiskScore;
  tra_adjusted_risk : SentimentAdjustment;
  tra_market_regime : MarketRegime
}.

(** [new_analyzer] stands for [SentimentAnalysis()]: constructing the
    analyzer may raise; the analyzer it yields maps a symbol to the awaited
    result of [analyze_sentiment]. *)
Definition analyze_trade_risk `{Numpy}
    (new_analyzer : result (string -> result (gmap string pyval)))
    (symbol : string) : result TradeRiskAnalysis :=
  let settings : gmap string Q := {[ "risk_per_trade" := 2 # 100 ]} in
  let risk_manager := RiskManager_init settings in
  let* sentiment_analyzer := new_analyzer in
  let market_data := get_market_data symbol in
  let* sentiment_data := sentiment_analyzer symbol in
  let portfolio_data := get_portfolio_data in
  let* risk_score :=
    calculate_risk_score risk_manager market_data sentiment_data portfolio_data in
  let* adjusted_risk := adjust_risk_by_sentiment risk_manager (2 # 100) sentiment_data in
  let* market_regime :=
    detect_market_regime risk_manager (prices market_data) (volumes market_data) in
  Ok {| tra_risk_score := risk_score;
        tra_adjusted_risk := adjusted_risk;
        tra_market_regime := market_regime |}.

(* ===================================================================== *)
(** * Properties                                                         *)
(* ===================================================================== *)

(** ** Basic facts about the primitives *)

Lemma bind_Ok {A B : Type} (m : result A) (k : A -> result B) (b : B) :
  bind m k = Ok b -> exists a, m = Ok a /\ k a = Ok b.
Proof. destruct m as [a|e]; simpl; [eauto | discriminate]. Qed.

Lemma Qeqb_true a b : Qeqb a b = true <-> a == b.
Proof. apply Qeq_bool_iff. Qed.

Lemma Qeqb_false a b : Qeqb a b = false <-> ~ a == b.
Proof.
  unfold Qeqb. rewrite <- Qeq_bool_iff. destruct (Qeq_bool a b); intuition congruence.
Qed.

Lemma Qltb_true a b : Qltb a b = true <-> a < b.
Proof.
  unfold Qltb. rewrite negb_true_iff, <- not_true_iff_false, Qle_bool_iff. split.
  - apply Qnot_le_lt.
  - apply Qlt_not_le.
Qed.

Lemma Qltb_false a b : Qltb a b = false <-> b <= a.
Proof. unfold Qltb. rewrite negb_false_iff. apply Qle_bool_iff. Qed.

Lemma Qgtb_true a b : Qgtb a b = true <-> b < a.
Proof. apply Qltb_true. Qed.

Lemma Qgtb_false a b : Qgtb a b = false <-> a <= b.
Proof. apply Qltb_false. Qed.

Lemma Qleb_true a b : Qleb a b = true <-> a <= b.
Proof. apply Qle_bool_iff. Qed.

Lemma py_max_bounds a b : a <= py_max a b /\ b <= py_max a b.
Proof.
  unfold py_max. destruct (Qgtb b a) eqn:E.
  - apply Qgtb_true in E. lra.
  - apply Qgtb_false in E. lra.
Qed.

Lemma py_div_zero a b : b == 0 -> py_div a b = Raise ZeroDivisionError.
Proof. intros H. unfold py_div. apply Qeqb_true in H. now rewrite H. Qed.

Lemma py_div_nonzero a b : ~ b == 0 -> py_div a b = Ok (a / b).
Proof. intros H. unfold py_div. apply Qeqb_false in H. now rewrite H. Qed.

(** The grid square root as an instance of [Numpy]. *)
Lemma Qsqrt_grid_0 x : x == 0 -> Qsqrt_grid x == 0.
Proof.
  unfold Qeq, Qsqrt_grid. simpl. intros H.
  assert (E : Qnum x = 0%Z) by lia. rewrite E. reflexivity.
Qed.

Definition grid_numpy : Numpy :=
  {| np_sqrt := Qsqrt_grid; np_sqrt_0 := Qsqrt_grid_0 |}.

(** ** The signal combiner *)

Section Combiner.

Variable self : SignalScorer.

Lemma Qabs_zero_iff (x : Q) : Qabs x == 0 <-> x == 0.
Proof.
  split; intros E.
  - destruct (Qlt_le_dec x 0) as [Hn|Hn].
    + rewrite Qabs_neg in E by lra. lra.
    + rewrite Qabs_pos in E by lra. lra.
  - rewrite E. reflexivity.
Qed.

(** Below the threshold the early [return] is taken, provided the price
    change could be computed. *)
Lemma combine_below_threshold price predicted_price conf volatility technical_score risk_score :
  ~ price == 0 ->
  conf < confidence_threshold self ->
  _combine_signals self price predicted_price conf volatility technical_score risk_score
  = Ok {| action := "WAIT"; confidence := conf; target_price := None;
          stop_loss := None; risk_reward := 0; position_size := 0 |}.
Proof.
  intros Hp Hc. unfold _combine_signals.
  rewrite (py_div_nonzero _ _ Hp). simpl.
  apply Qltb_true in Hc. now rewrite Hc.
Qed.

(** A zero price stops the combiner at its first statement. *)
Lemma combine_zero_price price predicted_price conf volatility technical_score risk_score :
  price == 0 ->
  _combine_signals self price predicted_price conf volatility technical_score risk_score
  = Raise ZeroDivisionError.
Proof.
  intros Hp. unfold _combine_signals. now rewrite (py_div_zero _ _ Hp).
Qed.

(** The distance from the price to the stop is [|price * volatility|] on
    both branches. *)
Lemma stop_distance price volatility (up : bool) :
  Qabs (price - (if up then price * (1 - volatility) else price * (1 + volatility)))
  == Qabs (price * volatility).
Proof.
  destruct up.
  - apply Qabs_wd. ring.
  - rewrite <- (Qabs_opp (price * volatility)). apply Qabs_wd. ring.
Qed.

Lemma combine_risk_reward price predicted_price conf volatility technical_score risk_score :
  ~ price == 0 ->
  ~ volatility == 0 ->
  confidence_threshold self <= conf ->
  exists s,
    _combine_signals self price predicted_price conf volatility technical_score risk_score
    = Ok s /\ risk_reward s == Qabs (min_risk_reward self).
Proof.
  intros Hp Hv Hc. unfold _combine_signals.
  rewrite (py_div_nonzero _ _ Hp). cbn [bind].
  apply Qltb_false in Hc. rewrite Hc.
  set (up := Qgtb ((predicted_price - price) / price) 0).
  set (stop := if up then price * (1 - volatility) else price * (1 + volatility)).
  assert (Hrisk : Qabs (price - stop) == Qabs (price * volatility))
    by apply stop_distance.
  assert (Hpv : ~ Qabs (price * volatility) == 0).
  { rewrite Qabs_zero_iff. intros E. apply Qmult_integral in E. tauto. }
  assert (Hsym : Qabs (stop - price) == Qabs (price - stop)).
  { rewrite <- (Qabs_opp (price - stop)). apply Qabs_wd. ring. }
  assert (Hden : ~ Qabs (stop - price) == 0) by (rewrite Hsym, Hrisk; exact Hpv).
  assert (Hden' : ~ Qabs (price - stop) == 0) by (rewrite Hrisk; exact Hpv).
  rewrite (py_div_nonzero _ _ Hden). cbn [bind].
  unfold _calculate_position_size. rewrite (py_div_nonzero _ _ Hden'). cbn [bind].
  eexists. split; [reflexivity|]. cbn [risk_reward].
  set (risk := Qabs (price - stop)) in *.
  assert (Hnum : Qabs ((if up then price + risk * min_risk_reward self
                        else price - risk * min_risk_reward self) - price)
                 == risk * Qabs (min_risk_reward self)).
  { assert (Hr : Qabs risk == risk) by (apply Qabs_pos, Qabs_nonneg).
    destruct up.
    - rewrite (Qabs_wd _ (risk * min_risk_reward self)) by ring.
      now rewrite Qabs_Qmult, Hr.
    - rewrite (Qabs_wd _ (- (risk * min_risk_reward self))) by ring.
      now rewrite Qabs_opp, Qabs_Qmult, Hr. }
  rewrite Hnum, Hsym. field. exact Hden'.
Qed.

End Combiner.

(** C2. Scenario A: with the default thresholds, price 100, predicted price
    110, confidence 0.9, volatility 0.05, technical score 0.8 and risk
    score 90, the combiner returns BUY with stop 95, target 110,
    risk/reward 2 and final score 0.87 (the returned confidence). *)
Theorem C2_scenario_A (forward : list Q -> result ModelPrediction) :
  exists s stop target,
    _combine_signals (SignalScorer_default forward)
      100 110 (9 # 10) (5 # 100) (8 # 10) 90 = Ok s
    /\ action s = "BUY"
    /\ stop_loss s = Some stop /\ stop == 95
    /\ target_price s = Some target /\ target == 110
    /\ risk_reward s == 2
    /\ confidence s == 87 # 100.
Proof.
  eexists. eexists. eexists.
  split; [vm_compute; reflexivity|].
  simpl. repeat split; reflexivity.
Qed.

(** The claim C9 as stated, for a scorer [self]: every input below the
    threshold yields the WAIT record. *)
Definition wait_below_threshold (self : SignalScorer) : Prop :=
  forall price predicted_price conf volatility technical_score risk_score,
    conf < confidence_threshold self ->
    _combine_signals self price predicted_price conf volatility technical_score risk_score
    = Ok {| action := "WAIT"; confidence := conf; target_price := None;
            stop_loss := None; risk_reward := 0; position_size := 0 |}.

(** C9, refuted as stated: at price 0 the price change is computed before
    the confidence test and the division raises. *)
Lemma C9_counterexample :
  ~ wait_below_threshold (SignalScorer_default (fun _ => Raise ValueError)).
Proof.
  intros H.
  specialize (H 0 110 (5 # 10) (5 # 100) (8 # 10) 90).
  assert (Hc : 5 # 10 < 7 # 10) by reflexivity.
  specialize (H Hc). vm_compute in H. discriminate.
Qed.

(** C9, amended: for a non-zero price and a confidence strictly below the
    threshold the combiner returns WAIT with position size 0, the input
    confidence unchanged, and no target or stop. *)
Theorem C9_wait_below_threshold (self : SignalScorer)
    price predicted_price conf volatility technical_score risk_score :
  ~ price == 0 ->
  conf < confidence_threshold self ->
  _combine_signals self price predicted_price conf volatility technical_score risk_score
  = Ok {| action := "WAIT"; confidence := conf; target_price := None;
          stop_loss := None; risk_reward := 0; position_size := 0 |}.
Proof. apply combine_below_threshold. Qed.

Lemma C9_witness :
  _combine_signals (SignalScorer_default (fun _ => Raise ValueError))
    100 110 (5 # 10) (5 # 100) (8 # 10) 90
  = Ok {| action := "WAIT"; confidence := 5 # 10; target_price := None;
          stop_loss := None; risk_reward := 0; position_size := 0 |}.
Proof.
  apply (C9_wait_below_threshold (SignalScorer_default (fun _ => Raise ValueError))).
  - intros E. vm_compute in E. discriminate.
  - reflexivity.
Defined.

(** The claim C10 as stated, for a scorer [self]. *)
Definition risk_reward_is_configured (self : SignalScorer) : Prop :=
  forall price predicted_price conf volatility technical_score risk_score,
    confidence_threshold self <= conf ->
    ~ price == 0 ->
    ~ volatility == 0 ->
    exists s,
      _combine_signals self price predicted_price conf volatility technical_score risk_score
      = Ok s /\ risk_reward s == min_risk_reward self.

(** C10, refuted as stated: a scorer configured with [min_risk_reward = -2]
    reports a risk/reward of 2. *)
Lemma C10_counterexample :
  ~ risk_reward_is_configured
      (SignalScorer_init (fun _ => Raise ValueError) (7 # 10) (-2) (2 # 100)).
Proof.
  intros H.
  destruct (H 100 110 (9 # 10) (5 # 100) (8 # 10) 90) as (s & Hs & Hrr).
  - vm_compute. discriminate.
  - intros E. vm_compute in E. discriminate.
  - intros E. vm_compute in E. discriminate.
  - vm_compute in Hs. injection Hs as <-. vm_compute in Hrr. discriminate.
Qed.

(** C10, amended: with confidence at or above the threshold and non-zero
    price and volatility, the returned risk/reward is the absolute value of
    the configured [min_risk_reward], whatever the other inputs; it is the
    configured constant itself when that is non-negative, as the default
    2.0 is. *)
Theorem C10_risk_reward (self : SignalScorer)
    price predicted_price conf volatility technical_score risk_score :
  confidence_threshold self <= conf ->
  ~ price == 0 ->
  ~ volatility == 0 ->
  exists s,
    _combine_signals self price predicted_price conf volatility technical_score risk_score
    = Ok s
    /\ risk_reward s == Qabs (min_risk_reward self)
    /\ (0 <= min_risk_reward self -> risk_reward s == min_risk_reward self).
Proof.
  intros Hc Hp Hv.
  destruct (combine_risk_reward self price predicted_price conf volatility
              technical_score risk_score Hp Hv Hc) as (s & Hs & Hrr).
  exists s. repeat split; trivial.
  intros Hpos. rewrite Hrr. now apply Qabs_pos.
Qed.

Lemma C10_witness :
  exists s,
    _combine_signals (SignalScorer_default (fun _ => Raise ValueError))
      100 90 (9 # 10) (5 # 100) (8 # 10) 90 = Ok s
    /\ risk_reward s == Qabs 2
    /\ (0 <= 2 -> risk_reward s == 2).
Proof.
  apply (C10_risk_reward (SignalScorer_default (fun _ => Raise ValueError))).
  - vm_compute. discriminate.
  - intros E. vm_compute in E. discriminate.
  - intros E. vm_compute in E. discriminate.
Defined.

(** ** The regime classifier *)

Section Regime.

Context `{Numpy}.

Lemma Qlen_pos {A : Type} (x : A) (xs : list A) : 0 < Qlen (x :: xs).
Proof. unfold Qlen, Qlt. simpl. lia. Qed.

Lemma Qlen_nonneg {A : Type} (xs : list A) : 0 <= Qlen xs.
Proof. unfold Qlen, Qle. simpl. lia. Qed.

(** A scalar never exceeds its own mean plus its own deviation. *)
Lemma high_volatility_false (v : np_float) :
  np_gtb v (np_add (np_mean_0d v) (np_std_0d v)) = false.
Proof.
  destruct v as [q| | |]; try reflexivity.
  unfold np_mean_0d, np_std_0d, np_mean, np_std, np_add, np_gtb, np_ltb.
  apply Qltb_false.
  assert (Hl : Qlen [q] == 1) by reflexivity.
  assert (Hs : Qsum [q] == q) by (unfold Qsum; simpl; ring).
  assert (Hm : Qsum [q] / Qlen [q] == q) by (rewrite Hl, Hs; field).
  set (m := Qsum [q] / Qlen [q]) in *.
  assert (Hz : Qsum (map (fun x => (x - m) * (x - m)) [q]) / Qlen [q] == 0).
  { rewrite Hl. unfold Qsum. simpl. rewrite Hm. field. }
  rewrite (np_sqrt_0 _ Hz), Hm. lra.
Qed.

Lemma py_last_cons {A : Type} (x : A) (xs : list A) : exists y, last (x :: xs) = Some y.
Proof.
  destruct (last (x :: xs)) as [y|] eqn:E; [eauto|].
  apply last_None in E. discriminate.
Qed.

Lemma detect_market_regime_nonempty (self : RiskManager) price_data volume_data recent :
  last volume_data = Some recent ->
  detect_market_regime self price_data volume_data
  = Ok (let high := np_gtb (Fin recent) (np_mul (np_mean volume_data) (Fin (15 # 10))) in
        {| regime := if high then "high_volume" else "normal";
           risk_multiplier := if high then 8 # 10 else 1;
           mr_volatility := np_std price_data;
           volume_ratio := np_div (Fin recent) (np_mean volume_data) |}).
Proof.
  intros Hl. unfold detect_market_regime, py_last. rewrite Hl. cbn [bind].
  rewrite high_volatility_false. cbn [andb].
  now destruct (np_gtb (Fin recent) _).
Qed.

Lemma detect_market_regime_empty (self : RiskManager) price_data :
  detect_market_regime self price_data [] = Raise IndexError.
Proof. reflexivity. Qed.

End Regime.

(** C3. The high-volatility test is always false, so the classifier never
    answers [high_risk] or [volatile]: whenever it returns, the regime is
    [high_volume] (multiplier 0.8) exactly when the last volume exceeds 1.5
    times the mean volume and [normal] (multiplier 1.0) otherwise; it
    returns for every volume series that has a last element. *)
Theorem C3_regime_never_volatile `{Numpy} (self : RiskManager)
    (price_data volume_data : list Q) :
  match detect_market_regime self price_data volume_data with
  | Ok r =>
      regime r <> "high_risk" /\ regime r <> "volatile"
      /\ exists recent,
           last volume_data = Some recent
           /\ let mean := Qsum volume_data / Qlen volume_data in
              (mean * (15 # 10) < recent
               /\ regime r = "high_volume" /\ risk_multiplier r = 8 # 10)
              \/ (recent <= mean * (15 # 10)
                  /\ regime r = "normal" /\ risk_multiplier r = 1)
  | Raise e => volume_data = [] /\ e = IndexError
  end.
Proof.
  destruct volume_data as [|v vs].
  - rewrite detect_market_regime_empty. split; reflexivity.
  - destruct (py_last_cons v vs) as [recent Hl].
    rewrite (detect_market_regime_nonempty self price_data _ recent Hl).
    cbv zeta. unfold np_mean, np_mul, np_gtb, np_ltb.
    destruct (Qltb _ recent) eqn:E; cbn [regime risk_multiplier].
    + repeat split; try discriminate.
      exists recent. split; [exact Hl|]. left.
      apply Qltb_true in E. repeat split; trivial.
    + repeat split; try discriminate.
      exists recent. split; [exact Hl|]. right.
      apply Qltb_false in E. repeat split; trivial.
Qed.

(** ** Degenerate inputs of the position sizer and the heat map *)

Section Degenerate.

Variable self : RiskManager.

Lemma position_size_zero_risk account_balance entry_price stop_loss_price :
  entry_price == stop_loss_price ->
  calculate_position_size self account_balance entry_price stop_loss_price
  = Raise ZeroDivisionError.
Proof.
  intros E. unfold calculate_position_size.
  rewrite py_div_zero; [reflexivity|].
  apply Qabs_zero_iff. lra.
Qed.

Lemma safe_leverage_zero_volatility account_balance position_value volatility :
  volatility == 0 ->
  calculate_safe_leverage self account_balance position_value volatility
  = Raise ZeroDivisionError.
Proof. intros E. unfold calculate_safe_leverage. now rewrite (py_div_zero _ _ E). Qed.

Lemma heat_map_zero_exposure (held : list (string * Position)) :
  held <> [] ->
  py_sum (map (fun kv => value (snd kv)) held) == 0 ->
  generate_portfolio_heat_map self held = Raise ZeroDivisionError.
Proof.
  intros Hne E. unfold generate_portfolio_heat_map.
  destruct held as [|[symbol pos] rest]; [congruence|].
  cbn [heat_map_loop]. now rewrite (py_div_zero _ _ E).
Qed.

Lemma heat_map_no_positions :
  generate_portfolio_heat_map self []
  = Ok {| hm_high_risk := []; hm_medium_risk := []; hm_low_risk := [] |}.
Proof. reflexivity. Qed.

End Degenerate.

(** The claim C4 as stated, for a risk manager [self]: each degenerate
    condition ends in the failure type the design names for it. *)
Definition typed_failures (self : RiskManager) : Prop :=
  (forall account_balance entry_price stop_loss_price,
      entry_price == stop_loss_price ->
      calculate_position_size self account_balance entry_price stop_loss_price
      = Raise (UserDefined "InvalidStopLoss"))
  /\ (forall account_balance position_value volatility,
      volatility == 0 ->
      calculate_safe_leverage self account_balance position_value volatility
      = Raise (UserDefined "InvalidVolatility"))
  /\ (forall held,
      py_sum (map (fun kv => value (snd kv)) held) == 0 ->
      generate_portfolio_heat_map self held
      = Raise (UserDefined "InvalidPortfolioState")).

(** C4, refuted as stated: with entry price and stop price both 100 the
    position sizer ends in [ZeroDivisionError], not in [InvalidStopLoss]. *)
Lemma C4_counterexample : ~ typed_failures (RiskManager_init ∅).
Proof.
  intros (Hsize & _ & _).
  specialize (Hsize 10000 100 100 (Qeq_refl 100)).
  vm_compute in Hsize. discriminate.
Qed.

(** C4, amended: the degenerate conditions surface as the built-in
    [ZeroDivisionError]: in [calculate_position_size] when the entry price
    equals the stop price, in [calculate_safe_leverage] when the volatility
    is 0, and in [generate_portfolio_heat_map] when a non-empty position
    set has total exposure 0; with no positions at all the heat map is
    returned with three empty buckets. *)
Theorem C4_zero_division (self : RiskManager)
    (account_balance entry_price stop_loss_price position_value volatility : Q)
    (held : list (string * Position)) :
  entry_price == stop_loss_price ->
  volatility == 0 ->
  held <> [] ->
  py_sum (map (fun kv => value (snd kv)) held) == 0 ->
  calculate_position_size self account_balance entry_price stop_loss_price
  = Raise ZeroDivisionError
  /\ calculate_safe_leverage self account_balance position_value volatility
     = Raise ZeroDivisionError
  /\ generate_portfolio_heat_map self held = Raise ZeroDivisionError
  /\ generate_portfolio_heat_map self []
     = Ok {| hm_high_risk := []; hm_medium_risk := []; hm_low_risk := [] |}.
Proof.
  intros He Hv Hne Hsum. repeat split.
  - now apply position_size_zero_risk.
  - now apply safe_leverage_zero_volatility.
  - now apply heat_map_zero_exposure.
Qed.

Lemma C4_witness :
  let self := RiskManager_init ∅ in
  let held := [("AAA", {| value := 5 |}); ("BBB", {| value := -5 |})] in
  calculate_position_size self 10000 100 100 = Raise ZeroDivisionError
  /\ calculate_safe_leverage self 10000 5000 0 = Raise ZeroDivisionError
  /\ generate_portfolio_heat_map self held = Raise ZeroDivisionError
  /\ generate_portfolio_heat_map self []
     = Ok {| hm_high_risk := []; hm_medium_risk := []; hm_low_risk := [] |}.
Proof.
  apply (C4_zero_division (RiskManager_init ∅) 10000 100 100 5000 0
           [("AAA", {| value := 5 |}); ("BBB", {| value := -5 |})]).
  - reflexivity.
  - reflexivity.
  - discriminate.
  - reflexivity.
Defined.

(** ** The backtest on an empty history *)

Lemma backtest_empty_history `{Numpy} (self : RiskManager) (strategy_params : gmap string Q) :
  backtest_risk_strategy self [] strategy_params
  = if Qeqb (default 10000 (strategy_params !! "initial_capital")) 0
    then Raise ZeroDivisionError
    else Raise IndexError.
Proof.
  unfold backtest_risk_strategy. cbn [backtest_loop bind].
  unfold py_div. now destruct (Qeqb _ 0).
Qed.

(** The claim C8 as stated, for a risk manager [self]. *)
Definition empty_history_typed `{Numpy} (self : RiskManager) : Prop :=
  forall strategy_params,
    backtest_risk_strategy self [] strategy_params = Raise (UserDefined "EmptyHistory").

(** C8, refuted as stated: on the empty history with the default initial
    capital the run ends in [IndexError]. *)
Lemma C8_counterexample :
  ~ empty_history_typed (H := grid_numpy) (RiskManager_init ∅).
Proof.
  intros Hc. specialize (Hc ∅). vm_compute in Hc. discriminate.
Qed.

(** C8, amended: on an empty history [backtest_risk_strategy] fails with
    the built-in [IndexError], raised by [_calculate_max_drawdown] when it
    reads the first element of the empty capital list, for every non-zero
    initial capital. *)
Theorem C8_empty_history `{Numpy} (self : RiskManager) (strategy_params : gmap string Q) :
  ~ default 10000 (strategy_params !! "initial_capital") == 0 ->
  backtest_risk_strategy self [] strategy_params = Raise IndexError.
Proof.
  intros Hne. rewrite backtest_empty_history.
  apply Qeqb_false in Hne. now rewrite Hne.
Qed.

Lemma C8_witness :
  backtest_risk_strategy (H := grid_numpy) (RiskManager_init ∅) [] ∅ = Raise IndexError.
Proof.
  apply (C8_empty_history (H := grid_numpy) (RiskManager_init ∅) ∅).
  intros E. vm_compute in E. discriminate.
Defined.

(** ** The end-to-end signal generator *)

Section Generate.

Context `{Numpy}.

Lemma technical_score_needs_volume (self : SignalScorer) price_data volume_data ts :
  _calculate_technical_score self price_data volume_data = Ok ts ->
  exists recent, last volume_data = Some recent.
Proof.
  unfold _calculate_technical_score, py_last.
  destruct (last volume_data) as [v|]; [eauto | discriminate].
Qed.

(** The dict [{'score': x}] has no ['news_sentiment'] entry. *)
Lemma risk_score_missing_sentiment (self : RiskManager) market_data (x : Q) portfolio_data recent :
  last (volumes market_data) = Some recent ->
  calculate_risk_score self market_data {[ "score" := PyFloat x ]} portfolio_data
  = Raise (KeyError "news_sentiment").
Proof.
  intros Hl. unfold calculate_risk_score.
  rewrite (detect_market_regime_nonempty self _ _ recent Hl). cbn [bind].
  unfold adjust_risk_by_sentiment, source_score, py_getitem.
  rewrite lookup_singleton_ne by discriminate. reflexivity.
Qed.

(** With a well-formed sentiment dict the call would stop two steps later:
    the dict [{'positions': {}}] has no ['returns'] entry either. *)
Lemma risk_score_missing_returns (self : RiskManager) market_data sentiment_data n s t recent :
  last (volumes market_data) = Some recent ->
  source_score sentiment_data "news_sentiment" = Ok n ->
  source_score sentiment_data "social_sentiment" = Ok s ->
  source_score sentiment_data "technical_sentiment" = Ok t ->
  calculate_risk_score self market_data sentiment_data
    {| positions := Some []; returns_by_asset := None |}
  = Raise (KeyError "returns").
Proof.
  intros Hl Hn Hs Ht. unfold calculate_risk_score.
  rewrite (detect_market_regime_nonempty self (prices market_data) _ recent Hl).
  cbn [bind]. unfold adjust_risk_by_sentiment. rewrite Hn, Hs, Ht. reflexivity.
Qed.

Lemma generate_signal_outcome (self : SignalScorer) symbol price_data volume_data features :
  generate_signal self symbol price_data volume_data features
  = match transformer_forward self price_data with
    | Raise e => Raise e
    | Ok _ =>
        match _calculate_technical_score self price_data volume_data with
        | Raise e => Raise e
        | Ok _ => Raise (KeyError "news_sentiment")
        end
    end.
Proof.
  unfold generate_signal.
  destruct (transformer_forward self price_data) as [pred|e]; [|reflexivity].
  cbn [bind].
  destruct (_calculate_technical_score self price_data volume_data) as [ts|e] eqn:Ets;
    [|reflexivity].
  cbn [bind].
  destruct (technical_score_needs_volume _ _ _ _ Ets) as [recent Hl].
  rewrite (risk_score_missing_sentiment (risk_manager self)
             {| prices := price_data; volumes := volume_data |} ts _ recent Hl).
  reflexivity.
Qed.

End Generate.

(** C1. [generate_signal] never returns a [TradeSignal]: every call raises.
    Whenever the predictor and the technical score succeed, the risk-scoring
    step raises the key-lookup error for ['news_sentiment'], the key the
    caller's [{'score': ...}] dict does not have; otherwise the exception of
    the earlier step is the one raised. *)
Theorem C1_generate_signal_raises `{Numpy} (self : SignalScorer) (symbol : string)
    (price_data volume_data : list Q) (features : option (gmap string pyval)) :
  raises (generate_signal self symbol price_data volume_data features)
  /\ match transformer_forward self price_data,
           _calculate_technical_score self price_data volume_data with
     | Ok _, Ok _ =>
         generate_signal self symbol price_data volume_data features
         = Raise (KeyError "news_sentiment")
     | Ok _, Raise e | Raise e, _ =>
         generate_signal self symbol price_data volume_data features = Raise e
     end.
Proof.
  rewrite generate_signal_outcome. unfold raises.
  destruct (transformer_forward self price_data) as [pred|e];
    [destruct (_calculate_technical_score self price_data volume_data) as [ts|e]|];
    split; eauto.
Qed.

(** ** The relative strength index *)

Section RSI.

Definition gain_of (d : Q) : Q := if Qgtb d 0 then d else 0.
Definition loss_of (d : Q) : Q := if Qltb d 0 then - d else 0.

Lemma gain_of_nonneg d : 0 <= gain_of d.
Proof.
  unfold gain_of. destruct (Qgtb d 0) eqn:E; [apply Qgtb_true in E|]; lra.
Qed.

Lemma loss_of_nonneg d : 0 <= loss_of d.
Proof.
  unfold loss_of. destruct (Qltb d 0) eqn:E; [apply Qltb_true in E|]; lra.
Qed.

Lemma loss_of_zero d : loss_of d == 0 <-> 0 <= d.
Proof.
  unfold loss_of. destruct (Qltb d 0) eqn:E.
  - apply Qltb_true in E. split; intros; lra.
  - apply Qltb_false in E. split; intros; [lra | reflexivity].
Qed.

Lemma Qsum_nonneg (xs : list Q) : Forall (fun x => 0 <= x) xs -> 0 <= Qsum xs.
Proof.
  induction 1 as [|x xs Hx _ IH]; simpl; [lra|].
  change (0 <= x + Qsum xs). lra.
Qed.

Lemma Qsum_zero_all (xs : list Q) :
  Forall (fun x => 0 <= x) xs -> Qsum xs == 0 -> Forall (fun x => x == 0) xs.
Proof.
  induction 1 as [|x xs Hx Hxs IH]; intros Hs; constructor.
  - change (x + Qsum xs == 0) in Hs. pose proof (Qsum_nonneg xs Hxs). lra.
  - apply IH. change (x + Qsum xs == 0) in Hs. pose proof (Qsum_nonneg xs Hxs). lra.
Qed.

Lemma Qsum_all_zero (xs : list Q) : Forall (fun x => x == 0) xs -> Qsum xs == 0.
Proof.
  induction 1 as [|x xs Hx _ IH]; [reflexivity|].
  change (x + Qsum xs == 0). lra.
Qed.

Lemma slice_last_map {A B : Type} (f : A -> B) (n : nat) (xs : list A) :
  py_slice_last n (map f xs) = map f (py_slice_last n xs).
Proof.
  destruct n; [reflexivity|]. unfold py_slice_last.
  now rewrite List.length_map, List.skipn_map.
Qed.

Lemma slice_last_nonempty {A : Type} (n : nat) (xs : list A) :
  xs <> [] -> py_slice_last n xs <> [].
Proof.
  intros Hne. destruct n; [exact Hne|]. unfold py_slice_last. intros E.
  apply (f_equal (@length A)) in E. rewrite List.length_skipn in E.
  destruct xs; [congruence|]. simpl in E. lia.
Qed.

Lemma np_diff_nonempty (xs : list Q) : (2 <= length xs)%nat -> np_diff xs <> [].
Proof. destruct xs as [|a [|b tl]]; simpl; [lia | lia | discriminate]. Qed.

Lemma mean_quotient_zero (s n : Q) : 0 < n -> (s / n == 0 <-> s == 0).
Proof.
  intros Hn. split; intros E.
  - assert (E' : s == s / n * n) by (field; lra).
    rewrite E', E. ring.
  - rewrite E. field. lra.
Qed.

Lemma np_div_fin (a b : Q) : ~ b == 0 -> np_div (Fin a) (Fin b) = Fin (a / b).
Proof. intros Hb. unfold np_div. apply Qeqb_false in Hb. now rewrite Hb. Qed.

Variable self : SignalScorer.

(** The value of the index on a non-empty window of deltas. *)
Lemma rsi_on_window (prices : list Q) (period : nat) :
  np_diff prices <> [] ->
  exists q,
    _calculate_rsi self prices period = Fin q
    /\ 0 <= q <= 100
    /\ (q == 100 <-> Forall (fun d => 0 <= d) (py_slice_last period (np_diff prices))).
Proof.
  intros Hne. unfold _calculate_rsi.
  change (fun d => if Qgtb d 0 then d else 0) with gain_of.
  change (fun d => if Qltb d 0 then - d else 0) with loss_of.
  rewrite !slice_last_map.
  pose proof (slice_last_nonempty period _ Hne) as Hw.
  set (w := py_slice_last period (np_diff prices)) in *.
  destruct w as [|d w]; [congruence|]. clear Hw.
  assert (Hloss : Forall (fun x => 0 <= x) (map loss_of (d :: w))).
  { apply List.Forall_map, List.Forall_forall. intros; apply loss_of_nonneg. }
  assert (Hgain : 0 <= Qsum (map gain_of (d :: w))).
  { apply Qsum_nonneg, List.Forall_map, List.Forall_forall. intros; apply gain_of_nonneg. }
  pose proof (Qsum_nonneg _ Hloss) as Hls.
  assert (Hlen : 0 < Qlen (map loss_of (d :: w))) by apply Qlen_pos.
  assert (Hlen' : 0 < Qlen (map gain_of (d :: w))) by apply Qlen_pos.
  unfold np_mean. cbn [map].
  change (loss_of d :: map loss_of w) with (map loss_of (d :: w)).
  change (gain_of d :: map gain_of w) with (map gain_of (d :: w)).
  set (avg_loss := Qsum (map loss_of (d :: w)) / Qlen (map loss_of (d :: w))).
  set (avg_gain := Qsum (map gain_of (d :: w)) / Qlen (map gain_of (d :: w))).
  assert (Hzero : avg_loss == 0 <-> Forall (fun d => 0 <= d) (d :: w)).
  { unfold avg_loss. rewrite (mean_quotient_zero _ _ Hlen). split.
    - intros Hs. apply (Qsum_zero_all _ Hloss) in Hs.
      apply List.Forall_map in Hs. revert Hs. apply List.Forall_impl.
      intros a. apply loss_of_zero.
    - intros Hall. apply Qsum_all_zero. apply List.Forall_map.
      revert Hall. apply List.Forall_impl. intros a. apply loss_of_zero. }
  unfold np_eqb. destruct (Qeqb avg_loss 0) eqn:E.
  - exists 100. split; [reflexivity|]. split; [lra|].
    apply Qeqb_true in E. split; intros _; [now apply Hzero | reflexivity].
  - apply Qeqb_false in E.
    assert (Hal : 0 < avg_loss).
    { assert (0 <= avg_loss) by (apply Qle_shift_div_l; lra).
      destruct (Qlt_le_dec 0 avg_loss); [trivial|]. exfalso. apply E. lra. }
    assert (Hag : 0 <= avg_gain) by (apply Qle_shift_div_l; lra).
    assert (Hrs : 0 <= avg_gain / avg_loss) by (apply Qle_shift_div_l; lra).
    rewrite (np_div_fin _ _ E). cbn [np_add].
    assert (Hd : ~ 1 + avg_gain / avg_loss == 0) by lra.
    rewrite (np_div_fin _ _ Hd).
    unfold np_sub, np_neg, np_add.
    eexists. split; [reflexivity|].
    assert (Ht : 0 < 100 / (1 + avg_gain / avg_loss)) by (apply Qlt_shift_div_l; lra).
    assert (Ht' : 100 / (1 + avg_gain / avg_loss) <= 100)
      by (apply Qle_shift_div_r; lra).
    split; [lra|]. split.
    + intros Hq. exfalso. lra.
    + intros Hall. exfalso. apply Hzero in Hall. tauto.
Qed.

End RSI.

(** The claim C7 as stated, for a scorer [self]: on a price series of at
    least 15 points the index is in [0,100], and is 100 exactly when the
    last 14 deltas are all non-negative with one of them positive. *)
Definition rsi_hundred_needs_gain (self : SignalScorer) : Prop :=
  forall prices,
    (15 <= length prices)%nat ->
    exists q,
      _calculate_rsi self prices 14 = Fin q
      /\ 0 <= q <= 100
      /\ (q == 100 <->
          Forall (fun d => 0 <= d) (py_slice_last 14 (np_diff prices))
          /\ Exists (fun d => 0 < d) (py_slice_last 14 (np_diff prices))).

(** C7, refuted as stated: on fifteen equal prices every delta is 0, the
    average loss is 0 and the index is 100 although no delta is positive. *)
Lemma C7_counterexample :
  ~ rsi_hundred_needs_gain (SignalScorer_default (fun _ => Raise ValueError)).
Proof.
  intros Hc. destruct (Hc (repeat 5 15)) as (q & Hq & _ & Hiff).
  - simpl. lia.
  - vm_compute in Hq. injection Hq as <-.
    destruct Hiff as [Hex _]. destruct (Hex (Qeq_refl _)) as [_ Hpos].
    apply List.Exists_exists in Hpos. destruct Hpos as (d & Hin & Hd).
    vm_compute in Hin.
    repeat (destruct Hin as [<-|Hin]; [vm_compute in Hd; discriminate|]).
    exact Hin.
Qed.

(** C7, amended: for every price series of at least 15 points the RSI lies
    in [0,100], and it equals 100 exactly when all price deltas over the
    14-period window are non-negative (a flat window included). *)
Theorem C7_rsi_range (self : SignalScorer) (prices : list Q) :
  (15 <= length prices)%nat ->
  exists q,
    _calculate_rsi self prices 14 = Fin q
    /\ 0 <= q <= 100
    /\ (q == 100 <-> Forall (fun d => 0 <= d) (py_slice_last 14 (np_diff prices))).
Proof.
  intros Hlen. apply rsi_on_window. apply np_diff_nonempty. lia.
Qed.

Lemma C7_witness :
  exists q,
    _calculate_rsi (SignalScorer_default (fun _ => Raise ValueError))
      [1; 2; 3; 2; 3; 4; 5; 4; 5; 6; 7; 6; 7; 8; 9; 8] 14 = Fin q
    /\ 0 <= q <= 100
    /\ (q == 100 <->
        Forall (fun d => 0 <= d)
          (py_slice_last 14 (np_diff [1; 2; 3; 2; 3; 4; 5; 4; 5; 6; 7; 6; 7; 8; 9; 8]))).
Proof.
  apply (C7_rsi_range (SignalScorer_default (fun _ => Raise ValueError))
           [1; 2; 3; 2; 3; 4; 5; 4; 5; 6; 7; 6; 7; 8; 9; 8]).
  simpl. lia.
Defined.

(** ** The risk score *)

Section Aggregator.

Context `{Numpy}.
Variable self : RiskManager.

Lemma py_sum4 (a b c d : Q) : py_sum [a; b; c; d] == a + b + c + d.
Proof. unfold py_sum. simpl. ring. Qed.

Lemma py_max_lub (a b c : Q) : a <= c -> b <= c -> py_max a b <= c.
Proof. intros Ha Hb. unfold py_max. now destruct (Qgtb b a). Qed.

(** A component of the form [max(0, 100 - n * k)] for a count [n]. *)
Lemma count_component_range {A : Type} (xs : list A) (k : Q) :
  0 <= k -> 0 <= py_max 0 (100 - Qlen xs * k) <= 100.
Proof.
  intros Hk. split.
  - apply py_max_bounds.
  - apply py_max_lub; [lra|].
    pose proof (Qlen_nonneg xs) as Hl.
    assert (0 <= Qlen xs * k) by (apply Qmult_le_0_compat; trivial). lra.
Qed.

Lemma regime_score_range (market_data : MarketData) (mr : MarketRegime) :
  detect_market_regime self (prices market_data) (volumes market_data) = Ok mr ->
  60 <= default 50 (regime_scores !! regime mr) <= 80.
Proof.
  destruct (volumes market_data) as [|v vs] eqn:Ev.
  - rewrite detect_market_regime_empty. discriminate.
  - destruct (py_last_cons v vs) as [recent Hl].
    rewrite (detect_market_regime_nonempty self (prices market_data) _ recent Hl).
    intros [= <-]. cbv zeta. cbn [regime].
    match goal with |- context [if ?b then _ else _] => destruct b end;
      vm_compute; split; discriminate.
Qed.

Lemma sentiment_adjustment_score (sentiment_data : gmap string pyval) base n s t adj :
  source_score sentiment_data "news_sentiment" = Ok n ->
  source_score sentiment_data "social_sentiment" = Ok s ->
  source_score sentiment_data "technical_sentiment" = Ok t ->
  adjust_risk_by_sentiment self base sentiment_data = Ok adj ->
  sentiment_score adj = n * (3 # 10) + s * (3 # 10) + t * (4 # 10).
Proof.
  intros Hn Hs Ht. unfold adjust_risk_by_sentiment.
  rewrite Hn, Hs, Ht. cbn [bind]. now intros [= <-].
Qed.

Lemma sentiment_adjustment_returns (sentiment_data : gmap string pyval) base n s t :
  source_score sentiment_data "news_sentiment" = Ok n ->
  source_score sentiment_data "social_sentiment" = Ok s ->
  source_score sentiment_data "technical_sentiment" = Ok t ->
  exists adj, adjust_risk_by_sentiment self base sentiment_data = Ok adj.
Proof.
  intros Hn Hs Ht. unfold adjust_risk_by_sentiment.
  rewrite Hn, Hs, Ht. cbn [bind]. eauto.
Qed.

(** What a successful call went through. *)
Lemma calculate_risk_score_Ok market_data sentiment_data portfolio_data r :
  calculate_risk_score self market_data sentiment_data portfolio_data = Ok r ->
  exists mr adj held hm rets cd,
    detect_market_regime self (prices market_data) (volumes market_data) = Ok mr
    /\ adjust_risk_by_sentiment self 1 sentiment_data = Ok adj
    /\ positions portfolio_data = Some held
    /\ generate_portfolio_heat_map self held = Ok hm
    /\ returns_by_asset portfolio_data = Some rets
    /\ calculate_correlation_risk self rets = Ok cd
    /\ score r
       = py_sum [ default 50 (regime_scores !! regime mr) * (3 # 10);
                  sentiment_score adj * 100 * (2 # 10);
                  py_max 0 (100 - Qlen (hm_high_risk hm) * 20) * (25 # 100);
                  py_max 0 (100 - Qlen (high_correlation_pairs cd) * 15) * (25 # 100) ]
    /\ level r = risk_level (score r).
Proof.
  unfold calculate_risk_score. intros Hr.
  apply bind_Ok in Hr as (mr & Hmr & Hr).
  apply bind_Ok in Hr as (adj & Hadj & Hr).
  apply bind_Ok in Hr as (held & Hheld & Hr).
  apply bind_Ok in Hr as (hm & Hhm & Hr).
  apply bind_Ok in Hr as (rets & Hrets & Hr).
  apply bind_Ok in Hr as (cd & Hcd & Hr).
  injection Hr as <-.
  exists mr, adj, held, hm, rets, cd.
  destruct (positions portfolio_data); [|discriminate].
  destruct (returns_by_asset portfolio_data); [|discriminate].
  injection Hheld as ->. injection Hrets as ->.
  repeat split; trivial.
Qed.

Lemma risk_level_thresholds (x : Q) :
  (x < 40 /\ risk_level x = "high")
  \/ (40 <= x /\ x < 70 /\ risk_level x = "medium")
  \/ (70 <= x /\ risk_level x = "low").
Proof.
  unfold risk_level.
  destruct (Qltb x 40) eqn:E40.
  - left. apply Qltb_true in E40. tauto.
  - apply Qltb_false in E40. destruct (Qltb x 70) eqn:E70.
    + right; left. apply Qltb_true in E70. tauto.
    + right; right. apply Qltb_false in E70. tauto.
Qed.

(** The heat map is built whenever the total exposure is not zero. *)
Lemma heat_map_loop_returns (total : Q) (held : list (string * Position)) risk_map :
  ~ total == 0 -> exists hm, heat_map_loop total held risk_map = Ok hm.
Proof.
  intros Ht. revert risk_map.
  induction held as [|[symbol pos] rest IH]; intros risk_map; cbn [heat_map_loop].
  - eauto.
  - rewrite (py_div_nonzero _ _ Ht). cbn [bind]. apply IH.
Qed.

Lemma corrcoef_returns (x y : list Q) :
  length x = length y -> exists c, np_corrcoef_01 x y = Ok c.
Proof.
  intros E. unfold np_corrcoef_01. rewrite E, Nat.eqb_refl. cbn [negb]. eauto.
Qed.

Lemma correlation_inner_returns (n : nat) asset1 returns1 others acc :
  length returns1 = n ->
  Forall (fun kv => length (snd kv) = n) others ->
  exists acc', correlation_inner self asset1 returns1 others acc = Ok acc'.
Proof.
  intros H1 Hall. revert acc.
  induction Hall as [|[asset2 returns2] rest H2 _ IH]; intros acc;
    cbn [correlation_inner].
  - eauto.
  - simpl in H2. destruct (corrcoef_returns returns1 returns2) as [c Hc]; [congruence|].
    rewrite Hc. cbn [bind]. apply IH.
Qed.

Lemma correlation_outer_returns (n : nat) assets acc :
  Forall (fun kv => length (snd kv) = n) assets ->
  exists acc', correlation_outer self assets acc = Ok acc'.
Proof.
  intros Hall. revert acc.
  induction Hall as [|[asset1 returns1] rest H1 Hrest IH]; intros acc;
    cbn [correlation_outer].
  - eauto.
  - simpl in H1.
    destruct (correlation_inner_returns n asset1 returns1 rest acc H1 Hrest) as [acc' Ha].
    rewrite Ha. cbn [bind]. apply IH.
Qed.

End Aggregator.

(** The inputs on which no step of [calculate_risk_score] other than the
    sentiment lookup can raise: a volume series with a last element, a
    ['positions'] entry that is empty or of non-zero total exposure, and a
    ['returns'] entry whose series all have one length. *)
Definition risk_input_ok (market_data : MarketData) (portfolio_data : PortfolioData) : Prop :=
  volumes market_data <> []
  /\ exists held rets n,
       positions portfolio_data = Some held
       /\ returns_by_asset portfolio_data = Some rets
       /\ (held = [] \/ ~ py_sum (map (fun kv => value (snd kv)) held) == 0)
       /\ Forall (fun kv => length (snd kv) = n) rets.

(** C5. With the three sentiment scores in [0,1], the score that
    [calculate_risk_score] returns lies in [0,100] and the level is the
    threshold function of the score: high below 40, medium from 40 to below
    70, low from 70 on.  The call does return on every input of the shape
    [risk_input_ok]. *)
Theorem C5_risk_score_range `{Numpy} (self : RiskManager)
    (market_data : MarketData) (sentiment_data : gmap string pyval)
    (portfolio_data : PortfolioData) (n s t : Q) :
  source_score sentiment_data "news_sentiment" = Ok n ->
  source_score sentiment_data "social_sentiment" = Ok s ->
  source_score sentiment_data "technical_sentiment" = Ok t ->
  0 <= n <= 1 -> 0 <= s <= 1 -> 0 <= t <= 1 ->
  match calculate_risk_score self market_data sentiment_data portfolio_data with
  | Ok r =>
      0 <= score r <= 100
      /\ ((score r < 40 /\ level r = "high")
          \/ (40 <= score r /\ score r < 70 /\ level r = "medium")
          \/ (70 <= score r /\ level r = "low"))
  | Raise _ => ~ risk_input_ok market_data portfolio_data
  end.
Proof.
  intros Hn Hs Ht Rn Rs Rt.
  destruct (calculate_risk_score self market_data sentiment_data portfolio_data)
    as [r|e] eqn:Hr.
  - destruct (calculate_risk_score_Ok self _ _ _ _ Hr)
      as (mr & adj & held & hm & rets & cd & Hmr & Hadj & _ & _ & _ & _ & Hscore & Hlevel).
    split.
    + rewrite Hscore, py_sum4.
      rewrite (sentiment_adjustment_score self _ _ _ _ _ _ Hn Hs Ht Hadj).
      pose proof (regime_score_range self _ _ Hmr) as Hreg.
      pose proof (count_component_range (hm_high_risk hm) 20) as Hconc.
      pose proof (count_component_range (high_correlation_pairs cd) 15) as Hcorr.
      lra.
    + rewrite Hlevel. apply risk_level_thresholds.
  - intros (Hvol & held & rets & k & Hheld & Hrets & Hexp & Hlen).
    unfold calculate_risk_score in Hr.
    destruct (volumes market_data) as [|v vs] eqn:Ev; [congruence|].
    destruct (py_last_cons v vs) as [recent Hl].
    rewrite (detect_market_regime_nonempty self (prices market_data) _ recent Hl) in Hr.
    cbn [bind] in Hr.
    destruct (sentiment_adjustment_returns self sentiment_data 1 n s t Hn Hs Ht)
      as [adj Hadj].
    rewrite Hadj, Hheld in Hr. cbn [bind py_key] in Hr.
    assert (Hhm : exists hm, generate_portfolio_heat_map self held = Ok hm).
    { destruct Hexp as [-> | Hexp]; [eexists; reflexivity|].
      now apply heat_map_loop_returns. }
    destruct Hhm as [hm Hhm]. rewrite Hhm, Hrets in Hr. cbn [bind py_key] in Hr.
    unfold calculate_correlation_risk in Hr.
    destruct (correlation_outer_returns self k rets ([], []) Hlen) as [acc Hacc].
    rewrite Hacc in Hr. cbn [bind] in Hr. discriminate.
Qed.

(** Within that range of sentiment the score is never below 18: the regime
    component alone contributes at least 60 * 0.3. *)
Lemma risk_score_at_least_18 `{Numpy} (self : RiskManager)
    (market_data : MarketData) (sentiment_data : gmap string pyval)
    (portfolio_data : PortfolioData) (n s t : Q) (r : RiskScore) :
  source_score sentiment_data "news_sentiment" = Ok n ->
  source_score sentiment_data "social_sentiment" = Ok s ->
  source_score sentiment_data "technical_sentiment" = Ok t ->
  0 <= n -> 0 <= s -> 0 <= t ->
  calculate_risk_score self market_data sentiment_data portfolio_data = Ok r ->
  18 <= score r.
Proof.
  intros Hn Hs Ht Rn Rs Rt Hr.
  destruct (calculate_risk_score_Ok self _ _ _ _ Hr)
    as (mr & adj & held & hm & rets & cd & Hmr & Hadj & _ & _ & _ & _ & Hscore & _).
  rewrite Hscore, py_sum4.
  rewrite (sentiment_adjustment_score self _ _ _ _ _ _ Hn Hs Ht Hadj).
  pose proof (regime_score_range self _ _ Hmr) as Hreg.
  pose proof (count_component_range (hm_high_risk hm) 20) as Hconc.
  pose proof (count_component_range (high_correlation_pairs cd) 15) as Hcorr.
  lra.
Qed.

Lemma C5_witness :
  let sd : gmap string pyval :=
    {[ "news_sentiment" := PyDict {[ "score" := PyFloat (1 # 2) ]};
       "social_sentiment" := PyDict {[ "score" := PyFloat (1 # 4) ]};
       "technical_sentiment" := PyDict {[ "score" := PyFloat 1 ]} ]} in
  let md := {| prices := [1; 2; 3]; volumes := [1; 1; 4] |} in
  let pd := {| positions := Some [("AAA", {| value := 10 |})];
               returns_by_asset := Some [("AAA", [1; 2; 3]); ("BBB", [2; 4; 7])] |} in
  match calculate_risk_score (H := grid_numpy) (RiskManager_init ∅) md sd pd with
  | Ok r =>
      0 <= score r <= 100
      /\ ((score r < 40 /\ level r = "high")
          \/ (40 <= score r /\ score r < 70 /\ level r = "medium")
          \/ (70 <= score r /\ level r = "low"))
  | Raise _ => ~ risk_input_ok md pd
  end.
Proof.
  intros sd md pd.
  apply (C5_risk_score_range (H := grid_numpy) (RiskManager_init ∅) md sd pd
           (1 # 2) (1 # 4) 1).
  - reflexivity.
  - reflexivity.
  - reflexivity.
  - split; discriminate.
  - split; discriminate.
  - split; discriminate.
Defined.

(** ** The backtest on periods of risk score zero *)

Section Backtest.

Context `{Numpy}.
Variable self : RiskManager.

(** A period whose risk score is computed, and is 0. *)
Definition zero_risk_period (p : PeriodRecord) : Prop :=
  exists r,
    calculate_risk_score self (market p) (sentiment p) (portfolio p) = Ok r
    /\ score r == 0.

Lemma five_percent_stop (p : Q) : ~ p == 0 -> ~ Qabs (p - p * (95 # 100)) == 0.
Proof. intros Hp E. rewrite Qabs_zero_iff in E. apply Hp. lra. Qed.

(** With a zero score in every period the capital is carried unchanged. *)
Lemma backtest_loop_zero_score (history : list (string * PeriodRecord)) :
  forall capital recorded adjustments,
    Forall (fun dp => zero_risk_period (snd dp) /\ ~ price (snd dp) == 0) history ->
    exists capital' new adjustments',
      backtest_loop self history capital recorded adjustments
      = Ok (capital', (recorded ++ new)%list, adjustments')
      /\ capital' == capital
      /\ length new = length history
      /\ Forall (fun t => tr_position_size t == 0 /\ tr_capital t == capital) new.
Proof.
  induction history as [|[date data] rest IH]; intros capital recorded adjustments Hall.
  - exists capital, [], adjustments. rewrite app_nil_r.
    split; [reflexivity|]. split; [reflexivity|]. split; [reflexivity | constructor].
  - inversion Hall as [|? ? [(r & Hr & Hs) Hp] Hrest]; subst. simpl in Hr, Hs, Hp.
    cbn [backtest_loop]. rewrite Hr. cbn [bind].
    unfold calculate_position_size.
    rewrite (py_div_nonzero _ _ (five_percent_stop _ Hp)). cbn [bind ps_position_size].
    set (size := capital * risk_per_trade self / Qabs (price data - price data * (95 # 100))).
    assert (Hadj : size * (score r / 100) == 0) by (rewrite Hs; field).
    assert (Hcap : capital + size * (score r / 100) * (next_price data - price data)
                   == capital) by (rewrite Hadj; ring).
    match goal with
    | |- context [backtest_loop self rest ?c ?tr ?ad] =>
        destruct (IH c tr ad Hrest) as (c' & new & ad' & Hloop & Hc' & Hlen & Hnew)
    end.
    rewrite Hloop. rewrite <- app_assoc.
    eexists c', (_ :: new), ad'. split; [reflexivity|].
    split; [now rewrite Hc'|]. split; [simpl; now rewrite Hlen|].
    constructor.
    + cbn [tr_position_size tr_capital]. split; assumption.
    + revert Hnew. apply List.Forall_impl. intros t [Ht1 Ht2].
      split; [exact Ht1 | now rewrite Ht2].
Qed.

Lemma drawdown_loop_flat (capitals : list Q) (peak : Q) :
  ~ peak == 0 ->
  Forall (fun c => c == peak) capitals ->
  drawdown_loop capitals peak 0 = Ok 0.
Proof.
  intros Hp. induction 1 as [|c rest Hc _ IH]; [reflexivity|].
  cbn [drawdown_loop].
  assert (E : Qgtb c peak = false) by (apply Qgtb_false; lra).
  rewrite E, (py_div_nonzero _ _ Hp). cbn [bind].
  assert (E' : Qgtb ((peak - c) / peak) 0 = false).
  { apply Qgtb_false.
    assert (Hz : (peak - c) / peak == 0) by (rewrite Hc; field; exact Hp).
    lra. }
  now rewrite E'.
Qed.

Lemma max_drawdown_flat (recorded : list TradeRecord) (c : Q) :
  recorded <> [] ->
  ~ c == 0 ->
  Forall (fun t => tr_capital t == c) recorded ->
  _calculate_max_drawdown self recorded = Ok (0 * 100).
Proof.
  intros Hne Hc Hall. unfold _calculate_max_drawdown.
  destruct recorded as [|t0 rest]; [congruence|].
  cbn [map py_first bind].
  assert (H0 : tr_capital t0 == c) by now inversion Hall.
  change (tr_capital t0 :: map tr_capital rest) with (map tr_capital (t0 :: rest)).
  rewrite drawdown_loop_flat; [reflexivity | now rewrite H0 |].
  apply List.Forall_map. revert Hall. apply List.Forall_impl.
  intros t Ht. now rewrite Ht, H0.
Qed.

Lemma period_returns_flat (capitals : list Q) (c : Q) :
  ~ c == 0 ->
  Forall (fun x => x == c) capitals ->
  exists rets,
    period_returns capitals = Ok rets
    /\ Forall (fun r => r == 0) rets
    /\ length rets = pred (length capitals).
Proof.
  intros Hc. induction 1 as [|prev tl Hprev Htl IH].
  - exists []. repeat constructor.
  - destruct tl as [|t tl'].
    + exists []. repeat constructor.
    + destruct IH as (rets & Hrets & Hzero & Hlen).
      assert (Ht : t == c) by now inversion Htl.
      assert (Hp : ~ prev == 0) by now rewrite Hprev.
      cbn [period_returns]. rewrite (py_div_nonzero _ _ Hp). cbn [bind].
      cbn [period_returns] in Hrets. rewrite Hrets. cbn [bind].
      eexists. split; [reflexivity|]. split.
      * constructor; [|exact Hzero]. rewrite Ht, Hprev. field. exact Hc.
      * simpl. simpl in Hlen. now rewrite Hlen.
Qed.

(** The deviation of a series of zeros is zero. *)
Lemma np_std_zeros (r : Q) (rets : list Q) :
  Forall (fun x => x == 0) (r :: rets) ->
  np_eqb (np_std (r :: rets)) (Fin 0) = true.
Proof.
  intros Hall. unfold np_std, np_eqb. apply Qeqb_true, np_sqrt_0.
  pose proof (Qlen_pos r rets) as Hl.
  assert (Hm : Qsum (r :: rets) / Qlen (r :: rets) == 0).
  { rewrite (Qsum_all_zero _ Hall). field. lra. }
  set (m := Qsum (r :: rets) / Qlen (r :: rets)) in *.
  apply (mean_quotient_zero _ _ Hl).
  apply Qsum_all_zero, List.Forall_map. revert Hall. apply List.Forall_impl.
  intros x Hx. rewrite Hx, Hm. ring.
Qed.

Lemma sharpe_ratio_flat (recorded : list TradeRecord) (c : Q) :
  ~ c == 0 ->
  Forall (fun t => tr_capital t == c) recorded ->
  _calculate_sharpe_ratio self recorded = Ok (Fin 0).
Proof.
  intros Hc Hall. unfold _calculate_sharpe_ratio.
  destruct (period_returns_flat (map tr_capital recorded) c Hc)
    as (rets & Hrets & Hzero & _).
  { apply List.Forall_map. exact Hall. }
  rewrite Hrets. cbn [bind].
  destruct rets as [|r rets]; [reflexivity|].
  now rewrite (np_std_zeros r rets Hzero).
Qed.

Lemma risk_adjusted_return_flat (recorded : list TradeRecord) (c : Q) :
  recorded <> [] ->
  ~ c == 0 ->
  Forall (fun t => tr_capital t == c) recorded ->
  _calculate_risk_adjusted_return self recorded = Ok 0.
Proof.
  intros Hne Hc Hall. unfold _calculate_risk_adjusted_return.
  rewrite (max_drawdown_flat recorded c Hne Hc Hall).
  destruct recorded as [|t0 rest]; [congruence|].
  destruct (py_last_cons t0 rest) as [tl Hl].
  unfold py_last. rewrite Hl. cbn [bind py_first].
  assert (H0 : ~ tr_capital t0 == 0).
  { assert (E : tr_capital t0 == c) by now inversion Hall. now rewrite E. }
  rewrite (py_div_nonzero _ _ H0). reflexivity.
Qed.

(** A history of any positive length whose periods all have risk score 0
    and a non-zero price: the capital curve is flat and the three risk
    metrics are zero. *)
Lemma backtest_zero_score (history : list (string * PeriodRecord))
    (strategy_params : gmap string Q) :
  history <> [] ->
  ~ default 10000 (strategy_params !! "initial_capital") == 0 ->
  Forall (fun dp => zero_risk_period (snd dp) /\ ~ price (snd dp) == 0) history ->
  exists res,
    backtest_risk_strategy self history strategy_params = Ok res
    /\ length (trades res) = length history
    /\ Forall (fun t => tr_position_size t == 0
                        /\ tr_capital t == default 10000 (strategy_params !! "initial_capital"))
         (trades res)
    /\ max_drawdown (metrics res) == 0
    /\ sharpe_ratio (metrics res) = Fin 0
    /\ risk_adjusted_return (metrics res) == 0.
Proof.
  intros Hne Hinit Hall. unfold backtest_risk_strategy.
  set (initial := default 10000 (strategy_params !! "initial_capital")) in *.
  destruct (backtest_loop_zero_score history initial [] [] Hall)
    as (capital & new & adjs & Hloop & Hcap & Hlen & Hnew).
  rewrite Hloop. cbn [bind app].
  rewrite (py_div_nonzero _ _ Hinit). cbn [bind].
  assert (Hnew_ne : new <> []).
  { destruct new; [|discriminate]. destruct history; [congruence | discriminate]. }
  assert (Hflat : Forall (fun t => tr_capital t == initial) new).
  { revert Hnew. apply List.Forall_impl. tauto. }
  rewrite (max_drawdown_flat new initial Hnew_ne Hinit Hflat). cbn [bind].
  rewrite (sharpe_ratio_flat new initial Hinit Hflat). cbn [bind].
  rewrite (risk_adjusted_return_flat new initial Hnew_ne Hinit Hflat). cbn [bind].
  eexists. split; [reflexivity|]. cbn [trades metrics max_drawdown sharpe_ratio
                                        risk_adjusted_return].
  repeat split; trivial; reflexivity.
Qed.

End Backtest.

(** What Scenario B concludes of a result [res]: two trade records, each
    with adjusted size 0 and capital 10000, and zero risk metrics. *)
Definition flat_at_10000 (res : BacktestResult) : Prop :=
  length (trades res) = 2%nat
  /\ Forall (fun t => tr_position_size t == 0 /\ tr_capital t == 10000) (trades res)
  /\ max_drawdown (metrics res) == 0
  /\ sharpe_ratio (metrics res) = Fin 0
  /\ risk_adjusted_return (metrics res) == 0.

(** The claim C6 as stated, for a risk manager [self]. *)
Definition zero_score_backtest_flat `{Numpy} (self : RiskManager) : Prop :=
  forall d1 p1 d2 p2 (strategy_params : gmap string Q),
    default 10000 (strategy_params !! "initial_capital") == 10000 ->
    zero_risk_period self p1 ->
    zero_risk_period self p2 ->
    exists res,
      backtest_risk_strategy self [(d1, p1); (d2, p2)] strategy_params = Ok res
      /\ flat_at_10000 res.

(** A period whose risk score is 0: a normal regime (80 * 0.3), no
    positions and no return series (100 * 0.25 each), and three sentiment
    scores of -3.7 (-370 * 0.2). *)
Definition zero_score_period (price next_price : Q) : PeriodRecord :=
  {| market := {| prices := [1; 2; 3]; volumes := [1; 1; 1] |};
     sentiment :=
       {[ "news_sentiment" := PyDict {[ "score" := PyFloat (-37 # 10) ]};
          "social_sentiment" := PyDict {[ "score" := PyFloat (-37 # 10) ]};
          "technical_sentiment" := PyDict {[ "score" := PyFloat (-37 # 10) ]} ]};
     portfolio := {| positions := Some []; returns_by_asset := Some [] |};
     price := price;
     next_price := next_price |}.

Lemma zero_score_period_zero (price next_price : Q) :
  zero_risk_period (H := grid_numpy) (RiskManager_init ∅) (zero_score_period price next_price).
Proof.
  unfold zero_risk_period. eexists. split; [vm_compute; reflexivity | reflexivity].
Qed.

(** C6, refuted as stated: a second period priced at 0 has its risk score
    computed (it is 0), then a zero price risk under the 5% stop, and the
    position sizing raises: the run has no second trade record and no
    metrics. *)
Lemma C6_counterexample :
  ~ zero_score_backtest_flat (H := grid_numpy) (RiskManager_init ∅).
Proof.
  intros Hc.
  destruct (Hc "d1" (zero_score_period 100 105) "d2" (zero_score_period 0 1) ∅)
    as (res & Hres & _).
  - reflexivity.
  - apply zero_score_period_zero.
  - apply zero_score_period_zero.
  - vm_compute in Hres. discriminate.
Qed.

(** C6, amended: for every 2-period backtest with initial capital 10000 in
    which every period has a non-zero price and a computed risk score of 0,
    the adjusted position size is 0 in every period, the capital is 10000
    in both trade records, and maxDrawdown, sharpeRatio and
    riskAdjustedReturn are 0. *)
Theorem C6_flat_backtest `{Numpy} (self : RiskManager)
    (d1 : string) (p1 : PeriodRecord) (d2 : string) (p2 : PeriodRecord)
    (strategy_params : gmap string Q) :
  default 10000 (strategy_params !! "initial_capital") == 10000 ->
  zero_risk_period self p1 ->
  zero_risk_period self p2 ->
  ~ price p1 == 0 ->
  ~ price p2 == 0 ->
  exists res,
    backtest_risk_strategy self [(d1, p1); (d2, p2)] strategy_params = Ok res
    /\ flat_at_10000 res.
Proof.
  intros Hinit Hz1 Hz2 Hp1 Hp2.
  destruct (backtest_zero_score self [(d1, p1); (d2, p2)] strategy_params)
    as (res & Hres & Hlen & Htrades & Hdd & Hsharpe & Hrar).
  - discriminate.
  - rewrite Hinit. discriminate.
  - repeat constructor; assumption.
  - exists res. split; [exact Hres|]. unfold flat_at_10000.
    repeat split; trivial.
    revert Htrades. apply List.Forall_impl. intros t [Ht1 Ht2].
    split; [exact Ht1 | now rewrite Ht2].
Qed.

Lemma C6_witness :
  exists res,
    backtest_risk_strategy (H := grid_numpy) (RiskManager_init ∅)
      [("d1", zero_score_period 100 105); ("d2", zero_score_period 105 90)] ∅ = Ok res
    /\ flat_at_10000 res.
Proof.
  apply (C6_flat_backtest (H := grid_numpy) (RiskManager_init ∅)
           "d1" (zero_score_period 100 105) "d2" (zero_score_period 105 90) ∅).
  - reflexivity.
  - apply zero_score_period_zero.
  - apply zero_score_period_zero.
  - intros E. vm_compute in E. discriminate.
  - intros E. vm_compute in E. discriminate.
Defined.

(* ===================================================================== *)
(** * Further properties of the risk manager                             *)
(* ===================================================================== *)

(** ** Position sizing and leverage *)

(** X1. When the entry price differs from the stop price, the position is
    sized so that the loss at the stop is exactly the risk budget:
    size * |entry - stop| is balance * risk_per_trade; the position value is
    size * entry and the reported percentage is risk_per_trade * 100. *)
Theorem position_size_meets_budget (self : RiskManager)
    (account_balance entry_price stop_loss_price : Q) :
  ~ entry_price == stop_loss_price ->
  exists sizing,
    calculate_position_size self account_balance entry_price stop_loss_price = Ok sizing
    /\ ps_position_size sizing * Qabs (entry_price - stop_loss_price)
       == account_balance * risk_per_trade self
    /\ ps_position_value sizing == ps_position_size sizing * entry_price
    /\ ps_risk_amount sizing == account_balance * risk_per_trade self
    /\ ps_risk_percent sizing == risk_per_trade self * 100.
Proof.
  intros Hne.
  assert (Hrisk : ~ Qabs (entry_price - stop_loss_price) == 0).
  { rewrite Qabs_zero_iff. intros E. apply Hne. lra. }
  unfold calculate_position_size. rewrite (py_div_nonzero _ _ Hrisk). cbn [bind].
  eexists. split; [reflexivity|].
  cbn [ps_position_size ps_position_value ps_risk_amount ps_risk_percent].
  repeat split; try reflexivity.
  field. exact Hrisk.
Qed.

Lemma position_size_meets_budget_witness :
  exists sizing,
    calculate_position_size (RiskManager_init ∅) 10000 100 95 = Ok sizing
    /\ ps_position_size sizing * Qabs (100 - 95) == 10000 * risk_per_trade (RiskManager_init ∅)
    /\ ps_position_value sizing == ps_position_size sizing * 100
    /\ ps_risk_amount sizing == 10000 * risk_per_trade (RiskManager_init ∅)
    /\ ps_risk_percent sizing == risk_per_trade (RiskManager_init ∅) * 100.
Proof.
  apply (position_size_meets_budget (RiskManager_init ∅) 10000 100 95).
  intros E. vm_compute in E. discriminate.
Defined.

(** X2. With a non-zero volatility and a non-zero balance the leverage
    check returns; the safe leverage never exceeds 3, and the position is
    reported safe exactly when value/balance is at most 3 and at most
    1/volatility. *)
Theorem safe_leverage_capped (self : RiskManager)
    (account_balance position_value volatility : Q) :
  ~ volatility == 0 ->
  ~ account_balance == 0 ->
  exists r,
    calculate_safe_leverage self account_balance position_value volatility = Ok r
    /\ max_safe_leverage r <= 3
    /\ max_safe_leverage r <= 1 / volatility
    /\ current_leverage r = position_value / account_balance
    /\ (is_safe r = true <->
        position_value / account_balance <= 3
        /\ position_value / account_balance <= 1 / volatility).
Proof.
  intros Hv Hb. unfold calculate_safe_leverage.
  rewrite (py_div_nonzero _ _ Hv). cbn [bind].
  rewrite (py_div_nonzero _ _ Hb). cbn [bind].
  eexists. split; [reflexivity|].
  cbn [max_safe_leverage current_leverage is_safe].
  unfold py_min. rewrite <- (Qleb_true (position_value / account_balance)).
  destruct (Qltb (1 / volatility) 3) eqn:E.
  - apply Qltb_true in E. rewrite !Qleb_true.
    split; [lra|]. split; [lra|]. split; [reflexivity|].
    split; [intros Hs | intros [_ Hs]]; lra.
  - apply Qltb_false in E. rewrite !Qleb_true.
    split; [lra|]. split; [lra|]. split; [reflexivity|].
    split; [intros Hs | intros [Hs _]]; lra.
Qed.

Lemma safe_leverage_capped_witness :
  exists r,
    calculate_safe_leverage (RiskManager_init ∅) 10000 20000 (1 # 2) = Ok r
    /\ max_safe_leverage r <= 3
    /\ max_safe_leverage r <= 1 / (1 # 2)
    /\ current_leverage r = 20000 / 10000
    /\ (is_safe r = true <-> 20000 / 10000 <= 3 /\ 20000 / 10000 <= 1 / (1 # 2)).
Proof.
  apply (safe_leverage_capped (RiskManager_init ∅) 10000 20000 (1 # 2)).
  - intros E. vm_compute in E. discriminate.
  - intros E. vm_compute in E. discriminate.
Defined.

(** ** Volume ratio and regime *)

(** X3. For a volume series of positive total, the classifier returns with
    the volume ratio last/mean as a finite number, and the regime is
    [high_volume] exactly when that ratio exceeds 1.5. *)
Theorem regime_follows_volume_ratio `{Numpy} (self : RiskManager)
    (price_data volume_data : list Q) :
  0 < Qsum volume_data ->
  exists r recent,
    detect_market_regime self price_data volume_data = Ok r
    /\ last volume_data = Some recent
    /\ volume_ratio r = Fin (recent / (Qsum volume_data / Qlen volume_data))
    /\ (regime r = "high_volume"
        <-> 15 # 10 < recent / (Qsum volume_data / Qlen volume_data)).
Proof.
  intros Hpos.
  destruct volume_data as [|v vs]; [exfalso; revert Hpos; apply Qlt_irrefl|].
  destruct (py_last_cons v vs) as [recent Hl].
  pose proof (Qlen_pos v vs) as Hlen.
  set (mean := Qsum (v :: vs) / Qlen (v :: vs)).
  assert (Hmean : 0 < mean) by (apply Qlt_shift_div_l; lra).
  assert (Hm0 : ~ mean == 0) by lra.
  eexists. exists recent.
  split; [apply (detect_market_regime_nonempty self price_data _ recent Hl)|].
  split; [exact Hl|]. cbv zeta. cbn [volume_ratio regime].
  change (np_mean (v :: vs)) with (Fin mean).
  split; [apply (np_div_fin _ _ Hm0)|].
  cbn [np_mul]. unfold np_gtb, np_ltb.
  assert (Hiff : mean * (15 # 10) < recent <-> 15 # 10 < recent / mean).
  { split; intros Hlt.
    - apply Qlt_shift_div_l; [exact Hmean | lra].
    - apply (Qmult_lt_r _ _ mean Hmean) in Hlt.
      assert (E : recent / mean * mean == recent) by (field; exact Hm0).
      lra. }
  destruct (Qltb (mean * (15 # 10)) recent) eqn:E.
  - apply Qltb_true in E. split; [intros _; now apply Hiff | reflexivity].
  - apply Qltb_false in E. split; [discriminate|].
    intros Hlt. apply Hiff in Hlt. lra.
Qed.

Lemma regime_follows_volume_ratio_witness :
  exists r recent,
    detect_market_regime (H := grid_numpy) (RiskManager_init ∅) [1; 2; 3] [1; 1; 4] = Ok r
    /\ last [1; 1; 4] = Some recent
    /\ volume_ratio r = Fin (recent / (Qsum [1; 1; 4] / Qlen [1; 1; 4]))
    /\ (regime r = "high_volume"
        <-> 15 # 10 < recent / (Qsum [1; 1; 4] / Qlen [1; 1; 4])).
Proof.
  apply (regime_follows_volume_ratio (H := grid_numpy) (RiskManager_init ∅) [1; 2; 3] [1; 1; 4]).
  reflexivity.
Defined.

(** ** The portfolio heat map *)

Section HeatMap.

Variable self : RiskManager.

(** The three bucket tests on a position, for a total exposure. *)
Definition in_high (total : Q) (kv : string * Position) : bool :=
  Qgtb (value (snd kv) / total) (2 # 10).
Definition in_medium (total : Q) (kv : string * Position) : bool :=
  negb (in_high total kv) && Qgtb (value (snd kv) / total) (1 # 10).
Definition in_low (total : Q) (kv : string * Position) : bool :=
  negb (in_high total kv) && negb (Qgtb (value (snd kv) / total) (1 # 10)).

(** The loop appends to each bucket the symbols passing its test, in order. *)
Lemma heat_map_loop_filters (total : Q) (held : list (string * Position)) :
  ~ total == 0 ->
  forall risk_map,
    heat_map_loop total held risk_map
    = Ok {| hm_high_risk :=
              (hm_high_risk risk_map ++ map fst (List.filter (in_high total) held))%list;
            hm_medium_risk :=
              (hm_medium_risk risk_map ++ map fst (List.filter (in_medium total) held))%list;
            hm_low_risk :=
              (hm_low_risk risk_map ++ map fst (List.filter (in_low total) held))%list |}.
Proof.
  intros Ht. induction held as [|[symbol pos] rest IH]; intros risk_map.
  - cbn [heat_map_loop List.filter map]. rewrite !app_nil_r. now destruct risk_map.
  - cbn [heat_map_loop]. rewrite (py_div_nonzero _ _ Ht). cbn [bind].
    rewrite IH. cbn [List.filter]. unfold in_medium, in_low, in_high. cbn [snd].
    destruct (Qgtb (value pos / total) (2 # 10));
      destruct (Qgtb (value pos / total) (1 # 10));
      cbn [negb andb map fst hm_high_risk hm_medium_risk hm_low_risk];
      now rewrite <- ?app_assoc.
Qed.

Lemma three_way_split {A : Type} (p1 p2 p3 : A -> bool) (xs : list A) :
  (forall x, (p1 x = true /\ p2 x = false /\ p3 x = false)
             \/ (p1 x = false /\ p2 x = true /\ p3 x = false)
             \/ (p1 x = false /\ p2 x = false /\ p3 x = true)) ->
  Permutation xs (List.filter p1 xs ++ List.filter p2 xs ++ List.filter p3 xs).
Proof.
  intros Hsplit. induction xs as [|x xs IH]; [constructor|].
  cbn [List.filter].
  destruct (Hsplit x) as [(-> & -> & ->) | [(-> & -> & ->) | (-> & -> & ->)]].
  - cbn [app]. now constructor.
  - apply Permutation_cons_app. exact IH.
  - rewrite app_assoc. apply Permutation_cons_app. rewrite <- app_assoc. exact IH.
Qed.

Lemma bucket_tests_exclusive (total : Q) (kv : string * Position) :
  (in_high total kv = true /\ in_medium total kv = false /\ in_low total kv = false)
  \/ (in_high total kv = false /\ in_medium total kv = true /\ in_low total kv = false)
  \/ (in_high total kv = false /\ in_medium total kv = false /\ in_low total kv = true).
Proof.
  unfold in_medium, in_low. destruct (in_high total kv);
    destruct (Qgtb (value (snd kv) / total) (1 # 10)); cbn; tauto.
Qed.

End HeatMap.

(** X4. When the total exposure is not zero the heat map is returned, every
    symbol lands in exactly one bucket (the three buckets together are a
    rearrangement of the input symbols), and the buckets are filled in input
    order by the ratio tests: above 0.2 high, above 0.1 medium, else low. *)
Theorem heat_map_partitions (self : RiskManager) (held : list (string * Position)) :
  ~ py_sum (map (fun kv => value (snd kv)) held) == 0 ->
  exists hm,
    generate_portfolio_heat_map self held = Ok hm
    /\ Permutation (map fst held)
         (hm_high_risk hm ++ hm_medium_risk hm ++ hm_low_risk hm)
    /\ let total := py_sum (map (fun kv => value (snd kv)) held) in
       hm_high_risk hm = map fst (List.filter (in_high total) held)
       /\ hm_medium_risk hm = map fst (List.filter (in_medium total) held)
       /\ hm_low_risk hm = map fst (List.filter (in_low total) held).
Proof.
  intros Ht. unfold generate_portfolio_heat_map.
  rewrite (heat_map_loop_filters _ held Ht). cbn [hm_high_risk hm_medium_risk hm_low_risk app].
  eexists. split; [reflexivity|].
  cbn [hm_high_risk hm_medium_risk hm_low_risk]. split; [|tauto].
  rewrite <- !List.map_app. apply Permutation_map.
  apply three_way_split. apply bucket_tests_exclusive.
Qed.

Lemma heat_map_partitions_witness :
  let held := [("AAA", {| value := 50 |}); ("BBB", {| value := 30 |});
               ("CCC", {| value := 15 |}); ("DDD", {| value := 5 |})] in
  exists hm,
    generate_portfolio_heat_map (RiskManager_init ∅) held = Ok hm
    /\ Permutation (map fst held)
         (hm_high_risk hm ++ hm_medium_risk hm ++ hm_low_risk hm)
    /\ let total := py_sum (map (fun kv => value (snd kv)) held) in
       hm_high_risk hm = map fst (List.filter (in_high total) held)
       /\ hm_medium_risk hm = map fst (List.filter (in_medium total) held)
       /\ hm_low_risk hm = map fst (List.filter (in_low total) held).
Proof.
  intros held. apply (heat_map_partitions (RiskManager_init ∅) held).
  intros E. vm_compute in E. discriminate.
Defined.

Section Concentration.

Lemma fold_left_Qplus (xs : list Q) (a : Q) : fold_left Qplus xs a == a + Qsum xs.
Proof.
  revert a. induction xs as [|x xs IH]; intros a; cbn [fold_left].
  - unfold Qsum. simpl. ring.
  - rewrite IH. change (Qsum (x :: xs)) with (x + Qsum xs). ring.
Qed.

Lemma py_sum_Qsum (xs : list Q) : py_sum xs == Qsum xs.
Proof. unfold py_sum. rewrite fold_left_Qplus. ring. Qed.

Lemma Qlen_cons {A : Type} (x : A) (xs : list A) : Qlen (x :: xs) == 1 + Qlen xs.
Proof.
  unfold Qlen. cbn [length]. rewrite Nat2Z.inj_succ, <- Z.add_1_l, inject_Z_plus.
  reflexivity.
Qed.

Lemma Qsum_filter_le {A : Type} (f : A -> Q) (p : A -> bool) (xs : list A) :
  Forall (fun x => 0 <= f x) xs ->
  Qsum (map f (List.filter p xs)) <= Qsum (map f xs).
Proof.
  induction 1 as [|x xs Hx _ IH]; [apply Qle_refl|].
  cbn [List.filter map]. change (Qsum (f x :: map f xs)) with (f x + Qsum (map f xs)).
  destruct (p x).
  - cbn [map]. change (Qsum (f x :: ?l)) with (f x + Qsum l).
    change (f x + Qsum (map f (List.filter p xs)) <= f x + Qsum (map f xs)). lra.
  - lra.
Qed.

Lemma Qsum_above {A : Type} (f : A -> Q) (c : Q) (xs : list A) :
  Forall (fun x => c < f x) xs ->
  xs <> [] ->
  c * Qlen xs < Qsum (map f xs).
Proof.
  induction 1 as [|x xs Hx Hxs IH]; intros Hne; [congruence|].
  cbn [map]. change (Qsum (f x :: map f xs)) with (f x + Qsum (map f xs)).
  rewrite Qlen_cons. destruct xs as [|y ys].
  - change (Qlen []) with 0. change (Qsum (map f [])) with 0. lra.
  - assert (c * Qlen (y :: ys) < Qsum (map f (y :: ys))) by (apply IH; discriminate).
    lra.
Qed.

Lemma Qlen_lt_nat {A : Type} (xs : list A) (n : nat) :
  Qlen xs < inject_Z (Z.of_nat n) -> (length xs < n)%nat.
Proof. unfold Qlen. rewrite <- Zlt_Qlt. lia. Qed.

End Concentration.

(** X5. In a portfolio whose position values are all positive, at most four
    positions can exceed 20% of the total, so the heat map never lists more
    than four symbols as high risk. *)
Theorem heat_map_at_most_four_high (self : RiskManager)
    (held : list (string * Position)) :
  held <> [] ->
  Forall (fun kv => 0 < value (snd kv)) held ->
  exists hm,
    generate_portfolio_heat_map self held = Ok hm
    /\ (length (hm_high_risk hm) <= 4)%nat.
Proof.
  intros Hne Hpos.
  set (total := py_sum (map (fun kv => value (snd kv)) held)).
  set (val := fun kv : string * Position => value (snd kv)).
  assert (Htot : total == Qsum (map val held)) by apply py_sum_Qsum.
  assert (Htot_pos : 0 < total).
  { rewrite Htot.
    assert (Hlt : 0 * Qlen held < Qsum (map val held)) by now apply Qsum_above.
    lra. }
  assert (Ht : ~ total == 0) by lra.
  assert (Hhm : exists hm,
             generate_portfolio_heat_map self held = Ok hm
             /\ hm_high_risk hm = map fst (List.filter (in_high total) held)).
  { unfold generate_portfolio_heat_map. fold total.
    rewrite (heat_map_loop_filters total held Ht). eexists. split; reflexivity. }
  destruct Hhm as (hm & Hhm & Hhigh).
  exists hm. split; [exact Hhm|].
  rewrite Hhigh, List.length_map.
  set (hs := List.filter (in_high total) held).
  destruct hs as [|h hs'] eqn:Ehs; [simpl; lia|].
  assert (Hall : Forall (fun kv => total * (2 # 10) < val kv) hs).
  { apply List.Forall_forall. intros kv Hin. unfold hs in Hin.
    apply List.filter_In in Hin as [_ Hin]. unfold in_high in Hin.
    apply Qgtb_true in Hin. fold (val kv) in Hin.
    apply (Qmult_lt_r _ _ total Htot_pos) in Hin.
    assert (E : val kv / total * total == val kv) by (field; exact Ht).
    lra. }
  assert (Hsum : total * (2 # 10) * Qlen hs < Qsum (map val hs)).
  { apply Qsum_above; [exact Hall | rewrite Ehs; discriminate]. }
  assert (Hle : Qsum (map val hs) <= Qsum (map val held)).
  { apply Qsum_filter_le. revert Hpos. apply List.Forall_impl. intros kv Hkv.
    unfold val. lra. }
  assert (Hfive : Qlen hs < 5).
  { assert (Hk : total * ((2 # 10) * Qlen hs) < total * 1) by lra.
    apply Qmult_lt_l in Hk; [lra | exact Htot_pos]. }
  rewrite <- Ehs. apply (Qlen_lt_nat hs 5) in Hfive. lia.
Qed.

Lemma heat_map_at_most_four_high_witness :
  let held := [("AAA", {| value := 30 |}); ("BBB", {| value := 30 |});
               ("CCC", {| value := 30 |}); ("DDD", {| value := 5 |})] in
  exists hm,
    generate_portfolio_heat_map (RiskManager_init ∅) held = Ok hm
    /\ (length (hm_high_risk hm) <= 4)%nat.
Proof.
  intros held. apply (heat_map_at_most_four_high (RiskManager_init ∅) held).
  - discriminate.
  - repeat constructor.
Defined.

(** ** Sentiment adjustment *)

Section Sentiment.

Variable self : RiskManager.

(** A source entry of the shape [{'score': q}]. *)
Definition has_score (sentiment_data : gmap string pyval) (source : string) (q : Q) : Prop :=
  exists d, sentiment_data !! source = Some (PyDict d) /\ d !! "score" = Some (PyFloat q).

Lemma source_score_Ok (sentiment_data : gmap string pyval) (source : string) (q : Q) :
  source_score sentiment_data source = Ok q <-> has_score sentiment_data source q.
Proof.
  unfold source_score, has_score, py_getitem. split.
  - destruct (sentiment_data !! source) as [[x|d]|]; cbn; try discriminate.
    unfold py_getitem. destruct (d !! "score") as [[y|d']|] eqn:Ed; cbn; try discriminate.
    intros [= ->]. eauto.
  - intros (d & -> & Hd). cbn. unfold py_getitem. now rewrite Hd.
Qed.

End Sentiment.

(** X6. The sentiment adjustment returns exactly when each of the three
    sources ['news_sentiment'], ['social_sentiment'] and
    ['technical_sentiment'] is a dict holding a numeric ['score']. *)
Theorem sentiment_adjustment_returns_iff (self : RiskManager) (base_risk : Q)
    (sentiment_data : gmap string pyval) :
  (exists adj, adjust_risk_by_sentiment self base_risk sentiment_data = Ok adj)
  <-> (exists n s t,
         has_score sentiment_data "news_sentiment" n
         /\ has_score sentiment_data "social_sentiment" s
         /\ has_score sentiment_data "technical_sentiment" t).
Proof.
  split.
  - intros [adj Hadj]. unfold adjust_risk_by_sentiment in Hadj.
    apply bind_Ok in Hadj as (n & Hn & Hadj).
    apply bind_Ok in Hadj as (s & Hs & Hadj).
    apply bind_Ok in Hadj as (t & Ht & _).
    exists n, s, t. now rewrite <- !source_score_Ok.
  - intros (n & s & t & Hn & Hs & Ht).
    apply source_score_Ok in Hn, Hs, Ht.
    now apply (sentiment_adjustment_returns self sentiment_data base_risk n s t).
Qed.

(** X7. With the three scores in [0,1] and a non-negative base risk, the
    weighted score is news*0.3 + social*0.3 + technical*0.4 and lies in
    [0,1]; the multiplier is 1.2 above 0.8, 0.6 below 0.2 and 1 in between,
    so the adjusted risk stays between 0.6 and 1.2 times the base risk. *)
Theorem sentiment_adjustment_bounded (self : RiskManager) (base_risk : Q)
    (sentiment_data : gmap string pyval) (n s t : Q) :
  source_score sentiment_data "news_sentiment" = Ok n ->
  source_score sentiment_data "social_sentiment" = Ok s ->
  source_score sentiment_data "technical_sentiment" = Ok t ->
  0 <= n <= 1 -> 0 <= s <= 1 -> 0 <= t <= 1 ->
  0 <= base_risk ->
  exists adj,
    adjust_risk_by_sentiment self base_risk sentiment_data = Ok adj
    /\ sentiment_score adj = n * (3 # 10) + s * (3 # 10) + t * (4 # 10)
    /\ 0 <= sentiment_score adj <= 1
    /\ ((8 # 10 < sentiment_score adj /\ sa_risk_multiplier adj = 12 # 10)
        \/ (sentiment_score adj < 2 # 10 /\ sa_risk_multiplier adj = 6 # 10)
        \/ (2 # 10 <= sentiment_score adj <= 8 # 10 /\ sa_risk_multiplier adj = 1))
    /\ original_risk adj = base_risk
    /\ adjusted_risk adj = base_risk * sa_risk_multiplier adj
    /\ base_risk * (6 # 10) <= adjusted_risk adj <= base_risk * (12 # 10).
Proof.
  intros Hn Hs Ht Rn Rs Rt Hb. unfold adjust_risk_by_sentiment.
  rewrite Hn, Hs, Ht. cbn [bind]. eexists. split; [reflexivity|].
  cbn [sentiment_score sa_risk_multiplier original_risk adjusted_risk].
  set (w := n * (3 # 10) + s * (3 # 10) + t * (4 # 10)).
  assert (Hw : 0 <= w <= 1) by (unfold w; lra).
  split; [reflexivity|]. split; [exact Hw|].
  destruct (Qgtb w (8 # 10)) eqn:E8.
  - apply Qgtb_true in E8. split; [left; tauto|]. repeat split; try reflexivity; nra.
  - apply Qgtb_false in E8. destruct (Qltb w (2 # 10)) eqn:E2.
    + apply Qltb_true in E2. split; [right; left; tauto|].
      repeat split; try reflexivity; nra.
    + apply Qltb_false in E2. split; [right; right; tauto|].
      repeat split; try reflexivity; nra.
Qed.

Lemma sentiment_adjustment_bounded_witness :
  let sd : gmap string pyval :=
    {[ "news_sentiment" := PyDict {[ "score" := PyFloat (9 # 10) ]};
       "social_sentiment" := PyDict {[ "score" := PyFloat 1 ]};
       "technical_sentiment" := PyDict {[ "score" := PyFloat (3 # 4) ]} ]} in
  exists adj,
    adjust_risk_by_sentiment (RiskManager_init ∅) (2 # 100) sd = Ok adj
    /\ sentiment_score adj = (9 # 10) * (3 # 10) + 1 * (3 # 10) + (3 # 4) * (4 # 10)
    /\ 0 <= sentiment_score adj <= 1
    /\ ((8 # 10 < sentiment_score adj /\ sa_risk_multiplier adj = 12 # 10)
        \/ (sentiment_score adj < 2 # 10 /\ sa_risk_multiplier adj = 6 # 10)
        \/ (2 # 10 <= sentiment_score adj <= 8 # 10 /\ sa_risk_multiplier adj = 1))
    /\ original_risk adj = 2 # 100
    /\ adjusted_risk adj = (2 # 100) * sa_risk_multiplier adj
    /\ (2 # 100) * (6 # 10) <= adjusted_risk adj <= (2 # 100) * (12 # 10).
Proof.
  intros sd.
  apply (sentiment_adjustment_bounded (RiskManager_init ∅) (2 # 100) sd (9 # 10) 1 (3 # 4)).
  - reflexivity.
  - reflexivity.
  - reflexivity.
  - split; discriminate.
  - split; discriminate.
  - split; discriminate.
  - discriminate.
Defined.

(** ** Correlation risk *)

Section Correlation.

Context `{Numpy}.
Variable self : RiskManager.

(** Number of unordered pairs among [n] assets. *)
Fixpoint pair_count (n : nat) : nat :=
  match n with
  | O => O
  | S m => (m + pair_count m)%nat
  end.


Lemma correlation_inner_counts (n : nat) asset1 returns1 others acc :
  length returns1 = n ->
  Forall (fun kv => length (snd kv) = n) others ->
  exists acc',
    correlation_inner self asset1 returns1 others acc = Ok acc'
    /\ length (fst acc') = (length (fst acc) + length others)%nat
    /\ (length (snd acc') <= length (snd acc) + length others)%nat.
Proof.
  intros H1 Hall. revert acc.
  induction Hall as [|[asset2 returns2] rest H2 _ IH]; intros acc;
    cbn [correlation_inner].
  - exists acc. split; [reflexivity|]. simpl. lia.
  - simpl in H2. destruct (corrcoef_returns returns1 returns2) as [c Hc]; [congruence|].
    rewrite Hc. cbn [bind].
    match goal with
    | |- context [correlation_inner self asset1 returns1 rest ?a] =>
        destruct (IH a) as (acc' & Hacc & Hfst & Hsnd)
    end.
    exists acc'. split; [exact Hacc|]. cbn [fst snd] in Hfst, Hsnd.
    rewrite List.length_app in Hfst. cbn [length] in *. split; [lia|].
    destruct (np_gtb _ _); [rewrite List.length_app in Hsnd; cbn [length] in Hsnd|]; lia.
Qed.

Lemma correlation_outer_counts (n : nat) assets acc :
  Forall (fun kv => length (snd kv) = n) assets ->
  exists acc',
    correlation_outer self assets acc = Ok acc'
    /\ length (fst acc') = (length (fst acc) + pair_count (length assets))%nat
    /\ (length (snd acc') <= length (snd acc) + pair_count (length assets))%nat.
Proof.
  intros Hall. revert acc.
  induction Hall as [|[asset1 returns1] rest H1 Hrest IH]; intros acc;
    cbn [correlation_outer].
  - exists acc. split; [reflexivity|]. simpl. lia.
  - simpl in H1.
    destruct (correlation_inner_counts n asset1 returns1 rest acc H1 Hrest)
      as (acc1 & Ha1 & Hf1 & Hs1).
    rewrite Ha1. cbn [bind].
    destruct (IH acc1) as (acc' & Hacc & Hfst & Hsnd).
    exists acc'. split; [exact Hacc|]. cbn [length pair_count]. lia.
Qed.

Lemma corrcoef_raises_value_error (x y : list Q) (e : exn) :
  np_corrcoef_01 x y = Raise e -> e = ValueError.
Proof.
  unfold np_corrcoef_01. destruct (negb _); [now intros [= <-] | discriminate].
Qed.

Lemma correlation_inner_raises asset1 returns1 others acc e :
  correlation_inner self asset1 returns1 others acc = Raise e -> e = ValueError.
Proof.
  revert acc. induction others as [|[asset2 returns2] rest IH]; intros acc;
    cbn [correlation_inner]; [discriminate|].
  destruct (np_corrcoef_01 returns1 returns2) as [c|e'] eqn:Ec; cbn [bind].
  - apply IH.
  - intros [= <-]. now apply corrcoef_raises_value_error in Ec.
Qed.

Lemma correlation_outer_raises assets acc e :
  correlation_outer self assets acc = Raise e -> e = ValueError.
Proof.
  revert acc. induction assets as [|[asset1 returns1] rest IH]; intros acc;
    cbn [correlation_outer]; [discriminate|].
  destruct (correlation_inner self asset1 returns1 rest acc) as [acc1|e'] eqn:Ei;
    cbn [bind].
  - apply IH.
  - intros [= <-]. now apply correlation_inner_raises in Ei.
Qed.

End Correlation.



(** X9. The only exception the correlation analysis can raise is
    [ValueError], from pairing two return series of different lengths. *)
Theorem correlation_only_value_error `{Numpy} (self : RiskManager)
    (asset_returns : list (string * list Q)) (e : exn) :
  calculate_correlation_risk self asset_returns = Raise e ->
  e = ValueError /\ ~ exists n, Forall (fun kv => length (snd kv) = n) asset_returns.
Proof.
  intros Hr. split.
  - unfold calculate_correlation_risk in Hr.
    destruct (correlation_outer self asset_returns ([], [])) as [acc|e'] eqn:Eo;
      cbn [bind] in Hr; [discriminate|].
    injection Hr as <-. now apply correlation_outer_raises in Eo.
  - intros [n Hall]. unfold calculate_correlation_risk in Hr.
    destruct (correlation_outer_counts self n asset_returns ([], []) Hall)
      as (acc & Hacc & _).
    rewrite Hacc in Hr. discriminate.
Qed.

Lemma correlation_only_value_error_witness :
  ValueError = ValueError
  /\ ~ exists n, Forall (fun kv => length (snd kv) = n)
                   [("AAA", [1; 2; 3]); ("BBB", [2; 4])].
Proof.
  apply (correlation_only_value_error (H := grid_numpy) (RiskManager_init ∅)
           [("AAA", [1; 2; 3]); ("BBB", [2; 4])] ValueError).
  reflexivity.
Defined.

(** ** Tighter bounds on the risk score *)

(** With a usable sentiment dict, the score is computed on every input of
    the shape [risk_input_ok]. *)
Lemma risk_score_returns_on_ok_input `{Numpy} (self : RiskManager)
    (market_data : MarketData) (sentiment_data : gmap string pyval)
    (portfolio_data : PortfolioData) (n s t : Q) :
  source_score sentiment_data "news_sentiment" = Ok n ->
  source_score sentiment_data "social_sentiment" = Ok s ->
  source_score sentiment_data "technical_sentiment" = Ok t ->
  risk_input_ok market_data portfolio_data ->
  exists r, calculate_risk_score self market_data sentiment_data portfolio_data = Ok r.
Proof.
  intros Hn Hs Ht (Hvol & held & rets & k & Hheld & Hrets & Hexp & Hlen).
  unfold calculate_risk_score.
  destruct (volumes market_data) as [|v vs] eqn:Ev; [congruence|].
  destruct (py_last_cons v vs) as [recent Hl].
  rewrite (detect_market_regime_nonempty self (prices market_data) _ recent Hl).
  cbn [bind].
  destruct (sentiment_adjustment_returns self sentiment_data 1 n s t Hn Hs Ht)
    as [adj Hadj].
  rewrite Hadj, Hheld. cbn [bind py_key].
  assert (Hhm : exists hm, generate_portfolio_heat_map self held = Ok hm).
  { destruct Hexp as [-> | Hexp]; [eexists; reflexivity|].
    now apply heat_map_loop_returns. }
  destruct Hhm as [hm Hhm]. rewrite Hhm, Hrets. cbn [bind py_key].
  unfold calculate_correlation_risk.
  destruct (correlation_outer_returns self k rets ([], []) Hlen) as [acc Hacc].
  rewrite Hacc. cbn [bind]. eauto.
Qed.

(** X10. With the three sentiment scores in [0,1], a returned risk score is
    never below 18 nor above 94: the regime component is 60 or 80, so the
    ends of the nominal range [0,100] are out of reach.  The call raises only
    on an input outside the shape [risk_input_ok]. *)
Theorem risk_score_between_18_and_94 `{Numpy} (self : RiskManager)
    (market_data : MarketData) (sentiment_data : gmap string pyval)
    (portfolio_data : PortfolioData) (n s t : Q) :
  source_score sentiment_data "news_sentiment" = Ok n ->
  source_score sentiment_data "social_sentiment" = Ok s ->
  source_score sentiment_data "technical_sentiment" = Ok t ->
  0 <= n <= 1 -> 0 <= s <= 1 -> 0 <= t <= 1 ->
  match calculate_risk_score self market_data sentiment_data portfolio_data with
  | Ok r =>
      18 <= score r <= 94
      /\ (sc_market_regime (components r) = 60
          \/ sc_market_regime (components r) = 80)
  | Raise _ => ~ risk_input_ok market_data portfolio_data
  end.
Proof.
  intros Hn Hs Ht Rn Rs Rt.
  destruct (calculate_risk_score self market_data sentiment_data portfolio_data)
    as [r|e] eqn:Hr.
  2:{ intros Hok.
      destruct (risk_score_returns_on_ok_input self _ _ _ n s t Hn Hs Ht Hok) as [r Hr'].
      congruence. }
  destruct (calculate_risk_score_Ok self _ _ _ _ Hr)
    as (mr & adj & held & hm & rets & cd & Hmr & Hadj & _ & _ & _ & _ & Hscore & _).
  split.
  - rewrite Hscore, py_sum4.
    rewrite (sentiment_adjustment_score self _ _ _ _ _ _ Hn Hs Ht Hadj).
    pose proof (regime_score_range self _ _ Hmr) as Hreg.
    pose proof (count_component_range (hm_high_risk hm) 20) as Hconc.
    pose proof (count_component_range (high_correlation_pairs cd) 15) as Hcorr.
    lra.
  - unfold calculate_risk_score in Hr. rewrite Hmr in Hr. cbn [bind] in Hr.
    apply bind_Ok in Hr as (? & _ & Hr). apply bind_Ok in Hr as (? & _ & Hr).
    apply bind_Ok in Hr as (? & _ & Hr). apply bind_Ok in Hr as (? & _ & Hr).
    apply bind_Ok in Hr as (? & _ & Hr). injection Hr as <-.
    cbn [components sc_market_regime]. clear -Hmr.
    destruct (volumes market_data) as [|v vs] eqn:Ev.
    + rewrite detect_market_regime_empty in Hmr. discriminate.
    + destruct (py_last_cons v vs) as [recent Hl].
      rewrite (detect_market_regime_nonempty self (prices market_data) _ recent Hl) in Hmr.
      injection Hmr as <-. cbv zeta. cbn [regime].
      match goal with |- context [if ?b then _ else _] => destruct b end;
        [left | right]; reflexivity.
Qed.

Lemma risk_score_between_18_and_94_witness :
  let sd : gmap string pyval :=
    {[ "news_sentiment" := PyDict {[ "score" := PyFloat (1 # 2) ]};
       "social_sentiment" := PyDict {[ "score" := PyFloat (1 # 4) ]};
       "technical_sentiment" := PyDict {[ "score" := PyFloat 1 ]} ]} in
  let md := {| prices := [1; 2; 3]; volumes := [1; 1; 4] |} in
  let pd := {| positions := Some [("AAA", {| value := 10 |})];
               returns_by_asset := Some [("AAA", [1; 2; 3]); ("BBB", [2; 4; 7])] |} in
  match calculate_risk_score (H := grid_numpy) (RiskManager_init ∅) md sd pd with
  | Ok r =>
      18 <= score r <= 94
      /\ (sc_market_regime (components r) = 60
          \/ sc_market_regime (components r) = 80)
  | Raise _ => ~ risk_input_ok md pd
  end.
Proof.
  intros sd md pd.
  apply (risk_score_between_18_and_94 (H := grid_numpy) (RiskManager_init ∅) md sd pd
           (1 # 2) (1 # 4) 1).
  - reflexivity.
  - reflexivity.
  - reflexivity.
  - split; discriminate.
  - split; discriminate.
  - split; discriminate.
Defined.

(** X11. With an empty portfolio (no positions, no return series), a
    non-empty volume series and the three sentiment scores in [0,1], the
    score is computed, the concentration and correlation components are both
    100, the score lies between 68 and 94, and the level is never [high]. *)
Theorem empty_portfolio_never_high `{Numpy} (self : RiskManager)
    (market_data : MarketData) (sentiment_data : gmap string pyval) (n s t : Q) :
  volumes market_data <> [] ->
  source_score sentiment_data "news_sentiment" = Ok n ->
  source_score sentiment_data "social_sentiment" = Ok s ->
  source_score sentiment_data "technical_sentiment" = Ok t ->
  0 <= n <= 1 -> 0 <= s <= 1 -> 0 <= t <= 1 ->
  exists r,
    calculate_risk_score self market_data sentiment_data
      {| positions := Some []; returns_by_asset := Some [] |} = Ok r
    /\ sc_concentration (components r) == 100
    /\ sc_correlation (components r) == 100
    /\ 68 <= score r <= 94
    /\ level r <> "high".
Proof.
  intros Hvol Hn Hs Ht Rn Rs Rt.
  set (pd := {| positions := Some []; returns_by_asset := Some [] |}).
  destruct (risk_score_returns_on_ok_input self market_data sentiment_data pd n s t
              Hn Hs Ht) as [r Hr].
  { split; [exact Hvol|]. exists [], [], O. repeat split; auto. }
  exists r. split; [exact Hr|].
  destruct (calculate_risk_score_Ok self _ _ _ _ Hr)
    as (mr & adj & held & hm & rets & cd & Hmr & Hadj & Hheld & Hhm & Hrets & Hcd
        & Hscore & Hlevel).
  cbn [pd positions returns_by_asset] in Hheld, Hrets.
  injection Hheld as <-. injection Hrets as <-.
  cbv in Hhm. injection Hhm as <-.
  unfold calculate_correlation_risk in Hcd. cbn in Hcd. injection Hcd as <-.
  assert (Hconc : sc_concentration (components r) == 100
                  /\ sc_correlation (components r) == 100).
  { unfold calculate_risk_score in Hr. rewrite Hmr, Hadj in Hr. cbn in Hr.
    injection Hr as <-. cbn [components sc_concentration sc_correlation].
    split; reflexivity. }
  split; [tauto|]. split; [tauto|].
  assert (Hrange : 68 <= score r <= 94).
  { rewrite Hscore, py_sum4.
    rewrite (sentiment_adjustment_score self _ _ _ _ _ _ Hn Hs Ht Hadj).
    pose proof (regime_score_range self _ _ Hmr) as Hreg.
    cbn [hm_high_risk high_correlation_pairs].
    assert (E1 : py_max 0 (100 - Qlen (@nil string) * 20) == 100) by reflexivity.
    assert (E2 : py_max 0 (100 - Qlen (@nil (string * string * np_float)) * 15) == 100)
      by reflexivity.
    cbn [snd] in *. rewrite E1, E2. lra. }
  split; [exact Hrange|].
  rewrite Hlevel. destruct (risk_level_thresholds (score r)) as [[Hlt _]|[(_ & _ & ->)|[_ ->]]].
  - lra.
  - discriminate.
  - discriminate.
Qed.

Lemma empty_portfolio_never_high_witness :
  let sd : gmap string pyval :=
    {[ "news_sentiment" := PyDict {[ "score" := PyFloat 0 ]};
       "social_sentiment" := PyDict {[ "score" := PyFloat 0 ]};
       "technical_sentiment" := PyDict {[ "score" := PyFloat 0 ]} ]} in
  let md := {| prices := [1; 2; 3]; volumes := [1; 1; 4] |} in
  exists r,
    calculate_risk_score (H := grid_numpy) (RiskManager_init ∅) md sd
      {| positions := Some []; returns_by_asset := Some [] |} = Ok r
    /\ sc_concentration (components r) == 100
    /\ sc_correlation (components r) == 100
    /\ 68 <= score r <= 94
    /\ level r <> "high".
Proof.
  intros sd md.
  apply (empty_portfolio_never_high (H := grid_numpy) (RiskManager_init ∅) md sd 0 0 0).
  - discriminate.
  - reflexivity.
  - reflexivity.
  - reflexivity.
  - split; discriminate.
  - split; discriminate.
  - split; discriminate.
Defined.

(** ** Drawdown of a capital curve *)

Section Drawdown.

Variable self : RiskManager.

Lemma drawdown_loop_range (capitals : list Q) :
  Forall (fun c => 0 < c) capitals ->
  forall peak max_dd,
    0 < peak -> 0 <= max_dd < 1 ->
    exists m, drawdown_loop capitals peak max_dd = Ok m /\ 0 <= m < 1.
Proof.
  induction 1 as [|c rest Hc _ IH]; intros peak max_dd Hp Hm; cbn [drawdown_loop].
  - eauto.
  - set (peak' := if Qgtb c peak then c else peak).
    assert (Hp' : 0 < peak' /\ c <= peak').
    { unfold peak'. destruct (Qgtb c peak) eqn:E.
      - split; lra.
      - apply Qgtb_false in E. split; lra. }
    assert (Hne : ~ peak' == 0) by lra.
    rewrite (py_div_nonzero _ _ Hne). cbn [bind].
    assert (Hdd : 0 <= (peak' - c) / peak' < 1).
    { split; [apply Qle_shift_div_l | apply Qlt_shift_div_r]; lra. }
    apply IH; [lra|]. destruct (Qgtb _ max_dd); lra.
Qed.

(** A curve in which no capital is below its predecessor. *)
Fixpoint nondecreasing (xs : list Q) : Prop :=
  match xs with
  | a :: (b :: _) as tl => a <= b /\ nondecreasing tl
  | _ => True
  end.

Lemma drawdown_loop_rising (capitals : list Q) :
  forall peak,
    0 < peak ->
    match capitals with c :: _ => peak <= c | [] => True end ->
    nondecreasing capitals ->
    drawdown_loop capitals peak 0 = Ok 0.
Proof.
  induction capitals as [|c rest IH]; intros peak Hp Hhd Hnd; cbn [drawdown_loop].
  - reflexivity.
  - set (peak' := if Qgtb c peak then c else peak).
    assert (Hp' : peak' == c /\ 0 < peak').
    { unfold peak'. destruct (Qgtb c peak) eqn:E.
      - split; [reflexivity | lra].
      - apply Qgtb_false in E. split; lra. }
    destruct Hp' as [Hpc Hpos].
    assert (Hne : ~ peak' == 0) by lra.
    rewrite (py_div_nonzero _ _ Hne). cbn [bind].
    assert (Hz : (peak' - c) / peak' == 0) by (rewrite Hpc; field; lra).
    assert (E : Qgtb ((peak' - c) / peak') 0 = false) by (apply Qgtb_false; lra).
    rewrite E. apply IH; [exact Hpos | |].
    + destruct rest as [|b rest']; [exact I|]. cbn in Hnd. lra.
    + destruct rest as [|b rest']; [exact I|]. cbn in Hnd. tauto.
Qed.

End Drawdown.

(** X12. For a non-empty list of trades whose capitals are all positive,
    the maximum drawdown is returned as a percentage in [0,100). *)
Theorem max_drawdown_is_percentage (self : RiskManager) (recorded : list TradeRecord) :
  recorded <> [] ->
  Forall (fun t => 0 < tr_capital t) recorded ->
  exists d, _calculate_max_drawdown self recorded = Ok d /\ 0 <= d < 100.
Proof.
  intros Hne Hall. unfold _calculate_max_drawdown.
  destruct recorded as [|t0 rest]; [congruence|].
  cbn [map py_first bind].
  assert (H0 : 0 < tr_capital t0) by now inversion Hall.
  destruct (drawdown_loop_range (map tr_capital (t0 :: rest))) with
    (peak := tr_capital t0) (max_dd := 0) as (m & Hm & Hr).
  - apply List.Forall_map. exact Hall.
  - exact H0.
  - lra.
  - cbn [map] in Hm. rewrite Hm. cbn [bind]. eexists. split; [reflexivity | lra].
Qed.

Lemma max_drawdown_is_percentage_witness :
  let trade c := {| tr_date := "d"; tr_risk_score :=
                      {| score := 0; level := "high";
                         components := {| sc_market_regime := 0; sc_sentiment := 0;
                                          sc_concentration := 0; sc_correlation := 0 |} |};
                    tr_position_size := 0; tr_pnl := 0; tr_capital := c |} in
  exists d,
    _calculate_max_drawdown (RiskManager_init ∅) [trade 100; trade 120; trade 90; trade 110]
    = Ok d /\ 0 <= d < 100.
Proof.
  intros trade.
  apply (max_drawdown_is_percentage (RiskManager_init ∅)
           [trade 100; trade 120; trade 90; trade 110]).
  - discriminate.
  - repeat constructor.
Defined.

(** X13. On a positive capital curve that never falls from one trade to the
    next, the maximum drawdown is 0 and so is the risk-adjusted return (its
    zero-drawdown fallback). *)
Theorem rising_curve_has_no_drawdown (self : RiskManager) (recorded : list TradeRecord) :
  recorded <> [] ->
  Forall (fun t => 0 < tr_capital t) recorded ->
  nondecreasing (map tr_capital recorded) ->
  _calculate_max_drawdown self recorded = Ok (0 * 100)
  /\ _calculate_risk_adjusted_return self recorded = Ok 0.
Proof.
  intros Hne Hall Hnd.
  assert (Hdd : _calculate_max_drawdown self recorded = Ok (0 * 100)).
  { unfold _calculate_max_drawdown.
    destruct recorded as [|t0 rest]; [congruence|].
    cbn [map py_first bind].
    assert (H0 : 0 < tr_capital t0) by now inversion Hall.
    change (tr_capital t0 :: map tr_capital rest) with (map tr_capital (t0 :: rest)).
    rewrite drawdown_loop_rising; [reflexivity | exact H0 | cbn; lra | exact Hnd]. }
  split; [exact Hdd|].
  unfold _calculate_risk_adjusted_return. rewrite Hdd.
  destruct recorded as [|t0 rest]; [congruence|].
  destruct (py_last_cons t0 rest) as [tl Hl].
  unfold py_last. rewrite Hl. cbn [bind py_first].
  assert (H0 : ~ tr_capital t0 == 0).
  { assert (0 < tr_capital t0) by now inversion Hall. lra. }
  rewrite (py_div_nonzero _ _ H0). reflexivity.
Qed.

Lemma rising_curve_has_no_drawdown_witness :
  let trade c := {| tr_date := "d"; tr_risk_score :=
                      {| score := 0; level := "high";
                         components := {| sc_market_regime := 0; sc_sentiment := 0;
                                          sc_concentration := 0; sc_correlation := 0 |} |};
                    tr_position_size := 0; tr_pnl := 0; tr_capital := c |} in
  _calculate_max_drawdown (RiskManager_init ∅) [trade 100; trade 100; trade 130]
  = Ok (0 * 100)
  /\ _calculate_risk_adjusted_return (RiskManager_init ∅) [trade 100; trade 100; trade 130]
     = Ok 0.
Proof.
  intros trade.
  apply (rising_curve_has_no_drawdown (RiskManager_init ∅)
           [trade 100; trade 100; trade 130]).
  - discriminate.
  - repeat constructor.
  - cbn. repeat split; discriminate.
Defined.

(** ** Accounting of the backtest *)

Section Accounting.

Context `{Numpy}.
Variable self : RiskManager.

(** Each trade's capital is the previous capital plus the trade's result. *)
Fixpoint carried_forward (capital : Q) (recorded : list TradeRecord) : Prop :=
  match recorded with
  | [] => True
  | t :: rest => tr_capital t = capital + tr_pnl t /\ carried_forward (tr_capital t) rest
  end.

(** The trade and the adjustment recorded for one period. *)
Definition period_recorded (dp : string * PeriodRecord) (t : TradeRecord)
    (a : RiskAdjustment) : Prop :=
  tr_date t = fst dp
  /\ ra_date a = fst dp
  /\ calculate_risk_score self (market (snd dp)) (sentiment (snd dp)) (portfolio (snd dp))
     = Ok (tr_risk_score t)
  /\ ra_risk_score a = tr_risk_score t
  /\ ra_adjusted_size a = tr_position_size t
  /\ tr_position_size t = ra_original_size a * (score (tr_risk_score t) / 100)
  /\ tr_pnl t = tr_position_size t * (next_price (snd dp) - price (snd dp)).

Inductive recorded_all :
  list (string * PeriodRecord) -> list TradeRecord -> list RiskAdjustment -> Prop :=
| recorded_nil : recorded_all [] [] []
| recorded_cons dp t a history ts adjs :
    period_recorded dp t a ->
    recorded_all history ts adjs ->
    recorded_all (dp :: history) (t :: ts) (a :: adjs).

Lemma backtest_loop_accounts (history : list (string * PeriodRecord)) :
  forall capital recorded adjustments capital' recorded' adjustments',
    backtest_loop self history capital recorded adjustments
    = Ok (capital', recorded', adjustments') ->
    exists new new_adjs,
      recorded' = (recorded ++ new)%list
      /\ adjustments' = (adjustments ++ new_adjs)%list
      /\ recorded_all history new new_adjs
      /\ carried_forward capital new
      /\ capital' == capital + Qsum (map tr_pnl new).
Proof.
  induction history as [|[date data] rest IH];
    intros capital recorded adjustments capital' recorded' adjustments' Hloop;
    cbn [backtest_loop] in Hloop.
  - injection Hloop as <- <- <-. exists [], []. rewrite !app_nil_r.
    repeat split; try constructor. unfold Qsum. simpl. ring.
  - apply bind_Ok in Hloop as (rs & Hrs & Hloop).
    apply bind_Ok in Hloop as (sizing & Hsz & Hloop).
    apply IH in Hloop as (new & new_adjs & -> & -> & Hall & Hcf & Hcap).
    eexists (_ :: new), (_ :: new_adjs).
    rewrite <- !app_assoc. split; [reflexivity|]. split; [reflexivity|].
    split; [|split].
    + constructor; [|exact Hall].
      unfold period_recorded.
      cbn [fst snd tr_date ra_date tr_risk_score ra_risk_score ra_adjusted_size
           tr_position_size ra_original_size tr_pnl].
      repeat split; trivial.
    + cbn [carried_forward tr_capital tr_pnl]. split; [reflexivity | exact Hcf].
    + rewrite Hcap. cbn [map tr_pnl].
      change (Qsum (?x :: ?l)) with (x + Qsum l). ring.
Qed.

Lemma recorded_all_length history ts adjs :
  recorded_all history ts adjs ->
  length ts = length history /\ length adjs = length history.
Proof. induction 1; cbn [length]; [split; reflexivity | lia]. Qed.

End Accounting.

(** X14. Whenever the backtest returns, it has recorded one trade and one
    adjustment per period, in the order of the history and under the
    period's date; every trade's size is the nominal size scaled by
    score/100 and its result is size * (next_price - price); each capital is
    the previous capital plus that result, so the final capital is the
    initial capital plus the sum of the results, and the total return is
    their relative difference in percent.  A returned run has at least one
    period. *)
Theorem backtest_accounts `{Numpy} (self : RiskManager)
    (historical_data : list (string * PeriodRecord)) (strategy_params : gmap string Q) :
  match backtest_risk_strategy self historical_data strategy_params with
  | Ok res =>
      let initial := default 10000 (strategy_params !! "initial_capital") in
      historical_data <> []
      /\ recorded_all self historical_data (trades res) (risk_adjustments res)
      /\ carried_forward initial (trades res)
      /\ final_capital (metrics res) == initial + Qsum (map tr_pnl (trades res))
      /\ total_return (metrics res)
         = (final_capital (metrics res) - initial) / initial * 100
  | Raise _ => True
  end.
Proof.
  destruct (backtest_risk_strategy self historical_data strategy_params)
    as [res|e] eqn:Hres; [|exact I].
  cbv zeta. unfold backtest_risk_strategy in Hres.
  apply bind_Ok in Hres as ([[capital recorded] adjs] & Hloop & Hres).
  apply bind_Ok in Hres as (growth & Hgrowth & Hres).
  apply bind_Ok in Hres as (dd & Hdd & Hres).
  apply bind_Ok in Hres as (sharpe & _ & Hres).
  apply bind_Ok in Hres as (rar & _ & Hres).
  injection Hres as <-. cbn [trades risk_adjustments metrics final_capital total_return].
  apply backtest_loop_accounts in Hloop as (new & new_adjs & Hrec & Hadj & Hall & Hcf & Hcap).
  cbn [app] in Hrec, Hadj. subst recorded adjs.
  split.
  - intros ->. inversion Hall; subst. discriminate.
  - repeat split; trivial.
    unfold py_div in Hgrowth. destruct (Qeqb _ 0); [discriminate|].
    now injection Hgrowth as <-.
Qed.

(** The backtest does return on ordinary data: two periods with sentiment
    scores inside [0,1], an empty portfolio, and a rising then falling price. *)
Definition sample_period (price next_price : Q) : PeriodRecord :=
  {| market := {| prices := [1; 2; 3]; volumes := [1; 1; 1] |};
     sentiment :=
       {[ "news_sentiment" := PyDict {[ "score" := PyFloat (1 # 2) ]};
          "social_sentiment" := PyDict {[ "score" := PyFloat (1 # 2) ]};
          "technical_sentiment" := PyDict {[ "score" := PyFloat (1 # 2) ]} ]};
     portfolio := {| positions := Some []; returns_by_asset := Some [] |};
     price := price;
     next_price := next_price |}.

Lemma backtest_sample_returns :
  exists res,
    backtest_risk_strategy (H := grid_numpy) (RiskManager_init ∅)
      [("d1", sample_period 100 105); ("d2", sample_period 105 100)] ∅ = Ok res
    /\ length (trades res) = 2%nat
    /\ ~ final_capital (metrics res) == 10000.
Proof.
  eexists. split; [vm_compute; reflexivity|]. split; [reflexivity|].
  intros E. vm_compute in E. discriminate.
Qed.

(* ===================================================================== *)
(** * Further properties of the signal scorer                            *)
(* ===================================================================== *)

(** ** The technical score *)

Section Technical.

Variable self : SignalScorer.

Lemma trend_score_values (prices : list Q) :
  match _calculate_trend_score self prices with
  | Ok ts => prices <> [] /\ (ts = 1 \/ ts = 0 \/ ts = 1 # 2)
  | Raise e => e = IndexError /\ prices = []
  end.
Proof.
  unfold _calculate_trend_score. destruct prices as [|p ps].
  - cbn. split; reflexivity.
  - destruct (py_last_cons p ps) as [cur Hl]. unfold py_last. rewrite Hl. cbn [bind].
    repeat match goal with |- context [if ?b then _ else _] => destruct b end;
      (split; [discriminate | tauto]).
Qed.

Lemma slice_last_all {A : Type} (n : nat) (xs : list A) :
  (length xs <= n)%nat -> py_slice_last n xs = xs.
Proof.
  intros Hle. destruct n; [reflexivity|]. unfold py_slice_last.
  replace (length xs - S n)%nat with O by lia. reflexivity.
Qed.

Lemma np_ltb_irrefl (x : np_float) : np_ltb x x = false.
Proof.
  destruct x as [q| | |]; try reflexivity. cbn. apply Qltb_false. apply Qle_refl.
Qed.

End Technical.

(** X15. The technical score is returned exactly when both series are
    non-empty, and then lies between 0.15 and 1; on an empty price or volume
    series the call raises [IndexError]. *)
Theorem technical_score_range (self : SignalScorer) (price_data volume_data : list Q) :
  match _calculate_technical_score self price_data volume_data with
  | Ok ts => price_data <> [] /\ volume_data <> [] /\ 15 # 100 <= ts <= 1
  | Raise e => e = IndexError /\ (price_data = [] \/ volume_data = [])
  end.
Proof.
  unfold _calculate_technical_score. destruct volume_data as [|v vs].
  - cbn. split; [reflexivity | now right].
  - destruct (py_last_cons v vs) as [cur Hl]. unfold py_last at 1. rewrite Hl. cbn [bind].
    pose proof (trend_score_values self price_data) as Ht.
    destruct (_calculate_trend_score self price_data) as [ts|e]; cbn [bind].
    + destruct Ht as [Hp Hts]. split; [exact Hp|]. split; [discriminate|].
      repeat match goal with |- context [if ?b then _ else _] => destruct b end;
        destruct Hts as [-> | [-> | ->]]; split; discriminate.
    + destruct Ht as [-> ->]. split; [reflexivity | now left].
Qed.

(** X16. On a price series of at most 20 points the two moving averages are
    the same mean of the whole series, so the trend score is the neutral
    0.5 whatever the prices. *)
Theorem short_series_trend_is_neutral (self : SignalScorer) (prices : list Q) :
  prices <> [] ->
  (length prices <= 20)%nat ->
  _calculate_trend_score self prices = Ok (1 # 2).
Proof.
  intros Hne Hlen. unfold _calculate_trend_score.
  rewrite (slice_last_all 20), (slice_last_all 50) by lia.
  destruct prices as [|p ps]; [congruence|].
  destruct (py_last_cons p ps) as [cur Hl]. unfold py_last. rewrite Hl. cbn [bind].
  unfold np_gtb. rewrite !np_ltb_irrefl, !andb_false_r. reflexivity.
Qed.

Lemma short_series_trend_is_neutral_witness :
  _calculate_trend_score (SignalScorer_default (fun _ => Raise ValueError))
    [10; 11; 12; 13; 14; 15; 16; 17; 18; 19] = Ok (1 # 2).
Proof.
  apply (short_series_trend_is_neutral (SignalScorer_default (fun _ => Raise ValueError))
           [10; 11; 12; 13; 14; 15; 16; 17; 18; 19]).
  - discriminate.
  - simpl. lia.
Defined.

(** ** The lower end of the relative strength index *)

Section RSILow.

Variable self : SignalScorer.

Lemma gain_of_zero d : gain_of d == 0 <-> d <= 0.
Proof.
  unfold gain_of. destruct (Qgtb d 0) eqn:E.
  - apply Qgtb_true in E. split; intros; lra.
  - apply Qgtb_false in E. split; intros; [lra | reflexivity].
Qed.

Lemma loss_sum_positive (w : list Q) :
  0 < Qsum (map loss_of w) <-> Exists (fun d => d < 0) w.
Proof.
  induction w as [|d w IH].
  - split; [intros Hlt; exfalso; revert Hlt; apply Qlt_irrefl | intros Hex; inversion Hex].
  - cbn [map]. change (Qsum (loss_of d :: map loss_of w))
      with (loss_of d + Qsum (map loss_of w)).
    pose proof (loss_of_nonneg d) as Hd.
    assert (Hs : 0 <= Qsum (map loss_of w)).
    { apply Qsum_nonneg, List.Forall_map, List.Forall_forall.
      intros; apply loss_of_nonneg. }
    pose proof (loss_of_zero d) as Hz.
    split.
    + intros Hlt. destruct (Qlt_le_dec d 0) as [Hneg|Hpos].
      * now constructor.
      * constructor 2. apply IH. apply Hz in Hpos. lra.
    + intros Hex. inversion Hex as [? ? Hneg | ? ? Hrest]; subst.
      * assert (~ loss_of d == 0) by (rewrite Hz; lra). lra.
      * apply IH in Hrest. lra.
Qed.

(** The two cases of the index on a non-empty window [w] of deltas. *)
Lemma rsi_cases (prices : list Q) (period : nat) :
  np_diff prices <> [] ->
  let w := py_slice_last period (np_diff prices) in
  let g := Qsum (map gain_of w) in
  let l := Qsum (map loss_of w) in
  (l == 0 /\ _calculate_rsi self prices period = Fin 100)
  \/ (0 < l /\ 0 <= g
      /\ _calculate_rsi self prices period
         = Fin (100 + - (100 / (1 + g / Qlen (map gain_of w) / (l / Qlen (map loss_of w)))))).
Proof.
  intros Hne. cbv zeta. unfold _calculate_rsi.
  change (fun d => if Qgtb d 0 then d else 0) with gain_of.
  change (fun d => if Qltb d 0 then - d else 0) with loss_of.
  rewrite !slice_last_map.
  pose proof (slice_last_nonempty period _ Hne) as Hw.
  set (w := py_slice_last period (np_diff prices)) in *.
  destruct w as [|d w]; [congruence|]. clear Hw.
  assert (Hls : 0 <= Qsum (map loss_of (d :: w))).
  { apply Qsum_nonneg, List.Forall_map, List.Forall_forall. intros; apply loss_of_nonneg. }
  assert (Hgs : 0 <= Qsum (map gain_of (d :: w))).
  { apply Qsum_nonneg, List.Forall_map, List.Forall_forall. intros; apply gain_of_nonneg. }
  assert (Hlen : 0 < Qlen (map loss_of (d :: w))) by apply Qlen_pos.
  assert (Hlen' : 0 < Qlen (map gain_of (d :: w))) by apply Qlen_pos.
  unfold np_mean. cbn [map].
  change (loss_of d :: map loss_of w) with (map loss_of (d :: w)).
  change (gain_of d :: map gain_of w) with (map gain_of (d :: w)).
  set (l := Qsum (map loss_of (d :: w))) in *.
  set (g := Qsum (map gain_of (d :: w))) in *.
  unfold np_eqb. destruct (Qeqb (l / Qlen (map loss_of (d :: w))) 0) eqn:E.
  - left. apply Qeqb_true in E. apply -> (mean_quotient_zero l _ Hlen) in E.
    split; [exact E | reflexivity].
  - right. apply Qeqb_false in E.
    assert (Hl : 0 < l).
    { destruct (Qlt_le_dec 0 l); [trivial|]. exfalso. apply E.
      apply (mean_quotient_zero _ _ Hlen). lra. }
    split; [exact Hl|]. split; [exact Hgs|].
    rewrite (np_div_fin _ _ E). cbn [np_add].
    assert (Hal : 0 < l / Qlen (map loss_of (d :: w))) by (apply Qlt_shift_div_l; lra).
    assert (Hag : 0 <= g / Qlen (map gain_of (d :: w))) by (apply Qle_shift_div_l; lra).
    assert (Hrs : 0 <= g / Qlen (map gain_of (d :: w)) / (l / Qlen (map loss_of (d :: w))))
      by (apply Qle_shift_div_l; lra).
    assert (Hd : ~ 1 + g / Qlen (map gain_of (d :: w)) / (l / Qlen (map loss_of (d :: w)))
                   == 0) by lra.
    rewrite (np_div_fin _ _ Hd). reflexivity.
Qed.

End RSILow.

(** X17. On a price series with at least two points the RSI is 0 exactly
    when no delta in the window is positive and at least one is negative. *)
Theorem rsi_zero_iff_only_losses (self : SignalScorer) (prices : list Q) (period : nat) :
  (2 <= length prices)%nat ->
  exists q,
    _calculate_rsi self prices period = Fin q
    /\ (q == 0 <->
        Forall (fun d => d <= 0) (py_slice_last period (np_diff prices))
        /\ Exists (fun d => d < 0) (py_slice_last period (np_diff prices))).
Proof.
  intros Hlen. pose proof (np_diff_nonempty prices Hlen) as Hne.
  pose proof (slice_last_nonempty period _ Hne) as Hw.
  destruct (rsi_cases self prices period Hne) as [[Hl ->] | (Hl & Hg & ->)];
    cbv zeta in *; set (w := py_slice_last period (np_diff prices)) in *.
  - exists 100. split; [reflexivity|]. split; [intros E; discriminate E|].
    intros [_ Hex]. apply loss_sum_positive in Hex. lra.
  - eexists. split; [reflexivity|].
    assert (Hlw : 0 < Qlen (map loss_of w)).
    { destruct w; [congruence | apply Qlen_pos]. }
    assert (Hgw : 0 < Qlen (map gain_of w)).
    { destruct w; [congruence | apply Qlen_pos]. }
    set (al := Qsum (map loss_of w) / Qlen (map loss_of w)).
    set (ag := Qsum (map gain_of w) / Qlen (map gain_of w)).
    assert (Hal : 0 < al) by (apply Qlt_shift_div_l; lra).
    assert (Hag : 0 <= ag) by (apply Qle_shift_div_l; lra).
    assert (Hrs : 0 <= ag / al) by (apply Qle_shift_div_l; lra).
    assert (Hq : 100 + - (100 / (1 + ag / al)) == 0 <-> Qsum (map gain_of w) == 0).
    { transitivity (ag == 0); [|apply (mean_quotient_zero _ _ Hgw)]. split; intros E.
      - assert (E2 : 100 == 100 / (1 + ag / al) * (1 + ag / al)) by (field; lra).
        set (rs := ag / al) in *. set (u := 100 / (1 + rs)) in *.
        assert (E1 : u == 100) by lra.
        rewrite E1 in E2.
        assert (E3 : rs == 0) by lra.
        assert (E4 : ag == rs * al) by (unfold rs; field; lra).
        rewrite E4, E3. ring.
      - rewrite E. field. lra. }
    rewrite Hq. split.
    + intros Hz. split; [|now apply loss_sum_positive].
      assert (Hall : Forall (fun x => x == 0) (map gain_of w)).
      { apply Qsum_zero_all; [|exact Hz].
        apply List.Forall_map, List.Forall_forall. intros; apply gain_of_nonneg. }
      apply List.Forall_map in Hall. revert Hall. apply List.Forall_impl.
      intros d. apply gain_of_zero.
    + intros [Hall _]. apply Qsum_all_zero, List.Forall_map.
      revert Hall. apply List.Forall_impl. intros d. apply gain_of_zero.
Qed.

Lemma rsi_zero_iff_only_losses_witness :
  exists q,
    _calculate_rsi (SignalScorer_default (fun _ => Raise ValueError)) [5; 4; 4; 2] 14 = Fin q
    /\ (q == 0 <->
        Forall (fun d => d <= 0) (py_slice_last 14 (np_diff [5; 4; 4; 2]))
        /\ Exists (fun d => d < 0) (py_slice_last 14 (np_diff [5; 4; 4; 2]))).
Proof.
  apply (rsi_zero_iff_only_losses (SignalScorer_default (fun _ => Raise ValueError))
           [5; 4; 4; 2] 14).
  simpl. lia.
Defined.

(** ** Geometry of a trading signal *)

Section Trade.

Variable self : SignalScorer.

(** The record built on the trading path, field by field. *)
Lemma combine_trade price predicted_price conf volatility technical_score risk_score :
  ~ price == 0 ->
  ~ volatility == 0 ->
  confidence_threshold self <= conf ->
  let change := (predicted_price - price) / price in
  let up := Qgtb change 0 in
  let stop := if up then price * (1 - volatility) else price * (1 + volatility) in
  let risk := Qabs (price - stop) in
  let target := if up then price + risk * min_risk_reward self
                else price - risk * min_risk_reward self in
  let final := conf * (3 # 10) + technical_score * (3 # 10) + risk_score / 100 * (4 # 10) in
  exists s,
    _combine_signals self price predicted_price conf volatility technical_score risk_score
    = Ok s
    /\ stop_loss s = Some stop
    /\ target_price s = Some target
    /\ confidence s = final
    /\ action s = (if Qgtb change volatility && Qgtb final (7 # 10) then "BUY"
                   else if Qltb change (- volatility) && Qgtb final (7 # 10) then "SELL"
                   else "WAIT")
    /\ position_size s
       = 100 * (risk_per_trade (risk_manager self) * (risk_score / 100)) / risk
    /\ ~ risk == 0.
Proof.
  intros Hp Hv Hc. cbv zeta. unfold _combine_signals.
  rewrite (py_div_nonzero _ _ Hp). cbn [bind].
  apply Qltb_false in Hc. rewrite Hc.
  set (up := Qgtb ((predicted_price - price) / price) 0).
  set (stop := if up then price * (1 - volatility) else price * (1 + volatility)).
  assert (Hrisk : Qabs (price - stop) == Qabs (price * volatility))
    by apply stop_distance.
  assert (Hpv : ~ Qabs (price * volatility) == 0).
  { rewrite Qabs_zero_iff. intros E. apply Qmult_integral in E. tauto. }
  assert (Hsym : Qabs (stop - price) == Qabs (price - stop)).
  { rewrite <- (Qabs_opp (price - stop)). apply Qabs_wd. ring. }
  assert (Hden : ~ Qabs (stop - price) == 0) by (rewrite Hsym, Hrisk; exact Hpv).
  assert (Hden' : ~ Qabs (price - stop) == 0) by (rewrite Hrisk; exact Hpv).
  rewrite (py_div_nonzero _ _ Hden). cbn [bind].
  unfold _calculate_position_size. rewrite (py_div_nonzero _ _ Hden'). cbn [bind].
  eexists. split; [reflexivity|].
  cbn [stop_loss target_price confidence action position_size].
  repeat split; trivial.
Qed.

End Trade.

(** X18. For a positive price, positive volatility and positive
    min_risk_reward, with confidence at or above the threshold: a predicted
    price above the current one puts the stop below and the target above the
    price; any other prediction (an unchanged one included) puts the stop
    above and the target below.  BUY is only ever returned on the first side
    and SELL only on the second. *)
Theorem stop_and_target_straddle_price (self : SignalScorer)
    price predicted_price conf volatility technical_score risk_score :
  0 < price ->
  0 < volatility ->
  0 < min_risk_reward self ->
  confidence_threshold self <= conf ->
  exists s stop target,
    _combine_signals self price predicted_price conf volatility technical_score risk_score
    = Ok s
    /\ stop_loss s = Some stop
    /\ target_price s = Some target
    /\ ((price < predicted_price /\ stop < price /\ price < target)
        \/ (predicted_price <= price /\ price < stop /\ target < price))
    /\ (action s = "BUY" -> price < predicted_price)
    /\ (action s = "SELL" -> predicted_price < price).
Proof.
  intros Hp Hv Hm Hc.
  assert (Hp0 : ~ price == 0) by lra. assert (Hv0 : ~ volatility == 0) by lra.
  destruct (combine_trade self price predicted_price conf volatility technical_score
              risk_score Hp0 Hv0 Hc) as (s & Hs & Hstop & Htarget & _ & Hact & _ & Hrisk).
  cbv zeta in *.
  set (change := (predicted_price - price) / price) in *.
  assert (Hchange : 0 < change <-> price < predicted_price).
  { unfold change. split; intros Hlt.
    - apply (Qmult_lt_r _ _ price Hp) in Hlt.
      assert (E : (predicted_price - price) / price * price == predicted_price - price)
        by (field; lra).
      lra.
    - apply Qlt_shift_div_l; lra. }
  assert (Hchange' : change < 0 <-> predicted_price < price).
  { unfold change. split; intros Hlt.
    - apply (Qmult_lt_r _ _ price Hp) in Hlt.
      assert (E : (predicted_price - price) / price * price == predicted_price - price)
        by (field; lra).
      lra.
    - apply Qlt_shift_div_r; lra. }
  eexists s, _, _. split; [exact Hs|]. split; [exact Hstop|]. split; [exact Htarget|].
  assert (Hpv : 0 < price * volatility) by (apply Qmult_lt_0_compat; trivial).
  split; [|split].
  - destruct (Qgtb change 0) eqn:Eup.
    + apply Qgtb_true in Eup. left. split; [now apply Hchange|].
      assert (Er : Qabs (price - price * (1 - volatility)) == price * volatility).
      { rewrite (Qabs_wd _ (price * volatility)) by ring. apply Qabs_pos. lra. }
      assert (0 < Qabs (price - price * (1 - volatility)) * min_risk_reward self).
      { rewrite Er. apply Qmult_lt_0_compat; trivial. }
      split; lra.
    + apply Qgtb_false in Eup. right.
      split; [destruct (Qlt_le_dec price predicted_price) as [Hlt|]; [apply Hchange in Hlt|]; lra|].
      assert (Er : Qabs (price - price * (1 + volatility)) == price * volatility).
      { rewrite (Qabs_wd _ (- (price * volatility))) by ring.
        rewrite Qabs_opp. apply Qabs_pos. lra. }
      assert (0 < Qabs (price - price * (1 + volatility)) * min_risk_reward self).
      { rewrite Er. apply Qmult_lt_0_compat; trivial. }
      split; lra.
  - rewrite Hact. destruct (Qgtb change volatility) eqn:Eb; cbn [andb].
    + intros _. apply Qgtb_true in Eb. apply Hchange. lra.
    + destruct (Qltb change (- volatility) && _); discriminate.
  - rewrite Hact. destruct (Qgtb change volatility && _); [discriminate|].
    destruct (Qltb change (- volatility)) eqn:Es; cbn [andb]; [|discriminate].
    intros _. apply Qltb_true in Es. apply Hchange'. lra.
Qed.

Lemma stop_and_target_straddle_price_witness :
  exists s stop target,
    _combine_signals (SignalScorer_default (fun _ => Raise ValueError))
      100 90 (9 # 10) (5 # 100) (8 # 10) 90 = Ok s
    /\ stop_loss s = Some stop
    /\ target_price s = Some target
    /\ ((100 < 90 /\ stop < 100 /\ 100 < target)
        \/ (90 <= 100 /\ 100 < stop /\ target < 100))
    /\ (action s = "BUY" -> 100 < 90)
    /\ (action s = "SELL" -> 90 < 100).
Proof.
  apply (stop_and_target_straddle_price (SignalScorer_default (fun _ => Raise ValueError))
           100 90 (9 # 10) (5 # 100) (8 # 10) 90).
  - reflexivity.
  - reflexivity.
  - reflexivity.
  - discriminate.
Defined.

(** X19. With confidence at or above the threshold and a non-zero price, a
    volatility of 0 puts the stop on the price and the risk/reward division
    raises [ZeroDivisionError]. *)
Theorem zero_volatility_raises (self : SignalScorer)
    price predicted_price conf volatility technical_score risk_score :
  ~ price == 0 ->
  volatility == 0 ->
  confidence_threshold self <= conf ->
  _combine_signals self price predicted_price conf volatility technical_score risk_score
  = Raise ZeroDivisionError.
Proof.
  intros Hp Hv Hc. unfold _combine_signals.
  rewrite (py_div_nonzero _ _ Hp). cbn [bind].
  apply Qltb_false in Hc. rewrite Hc.
  rewrite py_div_zero; [reflexivity|].
  apply Qabs_zero_iff. destruct (Qgtb _ 0); rewrite Hv; ring.
Qed.

Lemma zero_volatility_raises_witness :
  _combine_signals (SignalScorer_default (fun _ => Raise ValueError))
    100 110 (9 # 10) 0 (8 # 10) 90 = Raise ZeroDivisionError.
Proof.
  apply (zero_volatility_raises (SignalScorer_default (fun _ => Raise ValueError))).
  - intros E. vm_compute in E. discriminate.
  - reflexivity.
  - discriminate.
Defined.

(** X20. On the trading path the position is sized so that size times the
    distance to the stop equals risk_per_trade * risk_score (the budget on a
    notional of 100): a risk score of 0 gives a position of size 0. *)
Theorem signal_position_meets_budget (self : SignalScorer)
    price predicted_price conf volatility technical_score risk_score :
  ~ price == 0 ->
  ~ volatility == 0 ->
  confidence_threshold self <= conf ->
  exists s stop,
    _combine_signals self price predicted_price conf volatility technical_score risk_score
    = Ok s
    /\ stop_loss s = Some stop
    /\ position_size s * Qabs (price - stop)
       == risk_per_trade (risk_manager self) * risk_score
    /\ (risk_score == 0 -> position_size s == 0).
Proof.
  intros Hp Hv Hc.
  destruct (combine_trade self price predicted_price conf volatility technical_score
              risk_score Hp Hv Hc) as (s & Hs & Hstop & _ & _ & _ & Hsize & Hrisk).
  cbv zeta in *. eexists s, _. split; [exact Hs|]. split; [exact Hstop|].
  rewrite Hsize. split.
  - field. exact Hrisk.
  - intros Hz. rewrite Hz. field. exact Hrisk.
Qed.

Lemma signal_position_meets_budget_witness :
  exists s stop,
    _combine_signals (SignalScorer_default (fun _ => Raise ValueError))
      100 110 (9 # 10) (5 # 100) (8 # 10) 90 = Ok s
    /\ stop_loss s = Some stop
    /\ position_size s * Qabs (100 - stop)
       == risk_per_trade (risk_manager (SignalScorer_default (fun _ => Raise ValueError))) * 90
    /\ (90 == 0 -> position_size s == 0).
Proof.
  apply (signal_position_meets_budget (SignalScorer_default (fun _ => Raise ValueError))
           100 110 (9 # 10) (5 # 100) (8 # 10) 90).
  - intros E. vm_compute in E. discriminate.
  - intros E. vm_compute in E. discriminate.
  - discriminate.
Defined.

(** X21. With confidence and technical score at most 1, a risk score of 25
    or less can never trade: the final score cannot exceed 0.7, so every
    returned action is WAIT. *)
Theorem low_risk_score_always_waits (self : SignalScorer)
    price predicted_price conf volatility technical_score risk_score :
  conf <= 1 ->
  technical_score <= 1 ->
  risk_score <= 25 ->
  match _combine_signals self price predicted_price conf volatility technical_score
          risk_score with
  | Ok s => action s = "WAIT"
  | Raise _ => True
  end.
Proof.
  intros Hc Ht Hr.
  destruct (_combine_signals self price predicted_price conf volatility technical_score
              risk_score) as [s|e] eqn:Hs; [|exact I].
  unfold _combine_signals in Hs.
  apply bind_Ok in Hs as (change & _ & Hs).
  destruct (Qltb conf (confidence_threshold self)); [now injection Hs as <-|].
  apply bind_Ok in Hs as (rr & _ & Hs).
  apply bind_Ok in Hs as (size & _ & Hs).
  injection Hs as <-. cbn [action].
  assert (E : Qgtb (conf * (3 # 10) + technical_score * (3 # 10)
                    + risk_score / 100 * (4 # 10)) (7 # 10) = false).
  { apply Qgtb_false.
    assert (Hd : risk_score / 100 == risk_score * (1 # 100)) by field.
    rewrite Hd. lra. }
  rewrite E, !andb_false_r. reflexivity.
Qed.

Lemma low_risk_score_always_waits_witness :
  match _combine_signals (SignalScorer_default (fun _ => Raise ValueError))
          100 200 1 (5 # 100) 1 25 with
  | Ok s => action s = "WAIT"
  | Raise _ => True
  end.
Proof.
  apply (low_risk_score_always_waits (SignalScorer_default (fun _ => Raise ValueError))
           100 200 1 (5 # 100) 1 25).
  - discriminate.
  - discriminate.
  - discriminate.
Defined.

(* ===================================================================== *)
(** * Properties of the surrounding code                                 *)
(* ===================================================================== *)

(** ** The transformer's own signal *)

Section TransformerSignals.

Lemma first_confident_none (threshold : Q) (confidence : list Q) :
  first_confident threshold confidence = None
  <-> Forall (fun c => c <= threshold) confidence.
Proof.
  induction confidence as [|c rest IH]; cbn [first_confident].
  - split; [constructor | reflexivity].
  - destruct (Qgtb c threshold) eqn:E.
    + apply Qgtb_true in E. split; [discriminate|].
      intros Hall. inversion Hall; subst. lra.
    + apply Qgtb_false in E.
      destruct (first_confident threshold rest) as [i|].
      * split; [discriminate|]. intros Hall. inversion Hall; subst.
        apply IH in H2. discriminate.
      * split; [|reflexivity]. intros _. constructor; [exact E | now apply IH].
Qed.



End TransformerSignals.

(** X22. When no confidence exceeds the model's threshold, the transformer's
    signal is HOLD with confidence 0 and the current price as target,
    whatever the predictions and the price (a price of 0 included). *)
Theorem no_confident_step_holds (self : TradingTransformer)
    (predictions : ModelPrediction) (current_price : Q) :
  Forall (fun c => c <= tt_confidence_threshold self) (confidence_scores predictions) ->
  get_trading_signal self predictions current_price
  = Ok {| gts_signal := "HOLD"; gts_confidence := 0; gts_target_price := current_price;
          gts_volatility := None; gts_prediction_minutes_ahead := None |}.
Proof.
  intros Hall. unfold get_trading_signal.
  apply first_confident_none in Hall. now rewrite Hall.
Qed.

Lemma no_confident_step_holds_witness :
  get_trading_signal
    {| tt_input_size := 10; tt_confidence_threshold := 7 # 10; tt_prediction_horizon := 5 |}
    {| price_predictions := [101; 102; 103; 104; 105];
       confidence_scores := [6 # 10; 7 # 10; 5 # 10; 1 # 10; 2 # 10];
       volatility_estimates := [1 # 100; 1 # 100; 1 # 100; 1 # 100; 1 # 100] |} 0
  = Ok {| gts_signal := "HOLD"; gts_confidence := 0; gts_target_price := 0;
          gts_volatility := None; gts_prediction_minutes_ahead := None |}.
Proof.
  apply (no_confident_step_holds
           {| tt_input_size := 10; tt_confidence_threshold := 7 # 10;
              tt_prediction_horizon := 5 |}).
  repeat constructor; discriminate.
Defined.



(** ** The risk analysis of the entry point *)

(** X24. [analyze_trade_risk] never returns an analysis.  Whenever the
    sentiment analyzer is constructed and answers, the empty volume list of
    the placeholder market data makes the risk score raise [IndexError];
    otherwise the analyzer's own exception is the one raised. *)
Theorem analyze_trade_risk_raises `{Numpy}
    (new_analyzer : result (string -> result (gmap string pyval))) (symbol : string) :
  raises (analyze_trade_risk new_analyzer symbol)
  /\ match new_analyzer with
     | Ok sentiment_analyzer =>
         match sentiment_analyzer symbol with
         | Ok _ => analyze_trade_risk new_analyzer symbol = Raise IndexError
         | Raise e => analyze_trade_risk new_analyzer symbol = Raise e
         end
     | Raise e => analyze_trade_risk new_analyzer symbol = Raise e
     end.
Proof.
  unfold analyze_trade_risk, raises.
  destruct new_analyzer as [sentiment_analyzer|e]; cbn [bind]; [|eauto].
  destruct (sentiment_analyzer symbol) as [sentiment_data|e]; cbn [bind]; [|eauto].
  unfold calculate_risk_score, get_market_data. cbn [prices volumes].
  rewrite detect_market_regime_empty. cbn [bind]. eauto.
Qed.

(** ** Samples of the training dataset *)

Lemma py_slice_length {A : Type} (a b : nat) (xs : list A) :
  (a <= b)%nat -> (b <= length xs)%nat -> length (py_slice a b xs) = (b - a)%nat.
Proof.
  intros Hab Hb. unfold py_slice. rewrite List.length_firstn, List.length_skipn. lia.
Qed.

(** X25. At every index up to [__len__] the sample is complete: the input
    window has [sequence_length] rows and the target has
    [prediction_horizon] prices.  For the indices a sampler uses (below
    [__len__]) the sample ends before the last row of the data, so the last
    row is never part of a sample, while the index [__len__] itself would
    still give a complete one. *)
Theorem dataset_samples_complete (self : TradingDataset) (idx : nat) :
  (Z.of_nat idx <= TradingDataset_len self)%Z ->
  length (fst (TradingDataset_getitem self idx)) = ds_sequence_length self
  /\ length (snd (TradingDataset_getitem self idx)) = ds_prediction_horizon self
  /\ ((Z.of_nat idx < TradingDataset_len self)%Z ->
      (idx + ds_sequence_length self + ds_prediction_horizon self
       < length (ds_data self))%nat).
Proof.
  unfold TradingDataset_len, TradingDataset_getitem. intros Hidx. cbn [fst snd].
  rewrite List.length_map, !py_slice_length by lia.
  repeat split; lia.
Qed.

Lemma dataset_samples_complete_witness :
  let self := {| ds_data := [(1, [5]); (2, [5]); (3, [5]); (4, [5]); (5, [5]); (6, [5])];
                 ds_sequence_length := 3; ds_prediction_horizon := 2 |} in
  length (fst (TradingDataset_getitem self 1)) = ds_sequence_length self
  /\ length (snd (TradingDataset_getitem self 1)) = ds_prediction_horizon self
  /\ ((Z.of_nat 1 < TradingDataset_len self)%Z ->
      (1 + ds_sequence_length self + ds_prediction_horizon self
       < length (ds_data self))%nat).
Proof.
  intros self. apply (dataset_samples_complete self 1). vm_compute. discriminate.
Defined.

(** ** Sentiment sources *)

Lemma convert_tv_recommendation_range (recommendation : string) :
  0 <= _convert_tv_recommendation recommendation <= 1.
Proof.
  unfold _convert_tv_recommendation, tv_recommendations.
  repeat (rewrite lookup_insert; case_decide; [cbn; split; discriminate|]).
  rewrite lookup_singleton. case_decide; cbn; split; discriminate.
Qed.

(** X26. The TradingView sentiment never fails and its score is always in
    [0,1]: a recognised recommendation gives its table value, any other
    string 0.5, and a failed lookup (an exception of the collaborator or a
    summary without ['RECOMMENDATION']) the fallback 0 with no indicators. *)
Theorem trading_view_score_in_unit_range
    (get_analysis : string -> string -> string -> result TVAnalysis)
    (symbol asset_type : string) :
  0 <= tvs_score (_analyze_trading_view get_analysis symbol asset_type) <= 1
  /\ (tvs_indicators (_analyze_trading_view get_analysis symbol asset_type) = None ->
      tvs_score (_analyze_trading_view get_analysis symbol asset_type) = 0).
Proof.
  unfold _analyze_trading_view.
  destruct (get_analysis symbol _ _) as [analysis|e]; cbn [bind].
  - destruct (tv_summary analysis !! "RECOMMENDATION") as [r|]; cbn [bind tvs_score tvs_indicators].
    + split; [apply convert_tv_recommendation_range | discriminate].
    + split; [split; discriminate | reflexivity].
  - cbn [tvs_score tvs_indicators]. split; [split; discriminate | reflexivity].
Qed.

(** X27. The social sentiment score is always 0, however many posts the
    three searched subreddits yield: the sum of sentiments is never
    updated, and the divisor [max(mentions, 1)] is never zero, so the call
    always returns.  The mentions are the posts seen over the three
    subreddits. *)
Theorem social_score_is_always_zero (lower : string -> string)
    (posts_seen : string -> string -> nat) (symbol asset_type : string) :
  exists social a b c,
    _analyze_social lower posts_seen symbol asset_type = Ok social
    /\ ss_score social == 0
    /\ ss_subreddits_analyzed social = [a; b; c]
    /\ ss_mentions social
       = (posts_seen a symbol + posts_seen b symbol + posts_seen c symbol)%nat.
Proof.
  unfold _analyze_social, _analyze_reddit.
  set (subreddits := if String.eqb asset_type "CRYPTO" then _ else _).
  set (mentions := fold_left _ subreddits O).
  assert (Hne : ~ inject_Z (Z.of_nat (Nat.max mentions 1)) == 0).
  { unfold Qeq. simpl. lia. }
  rewrite (py_div_nonzero _ _ Hne). cbn [bind].
  unfold mentions, subreddits.
  destruct (String.eqb asset_type "CRYPTO");
    eexists _, _, _, _; (split; [reflexivity|]);
    cbn [ss_score ss_subreddits_analyzed ss_mentions rs_score rs_mentions rs_subreddits];
    (split; [unfold Qdiv; ring | split; reflexivity]).
Qed.

(** ** Technical signals *)

Section Signals.

(** Without a ['close'] series no path through [check_signals] returns. *)
Lemma check_signals_needs_close (data : gmap string series) :
  data !! "close" = None -> raises (check_signals data).
Proof.
  intros Hclose. unfold check_signals, raises, series_getitem.
  rewrite Hclose.
  repeat match goal with
         | |- context [bind (Raise ?e) _] => cbn [bind]
         | |- context [bind (Ok ?x) _] => cbn [bind]
         | |- exists e, Raise ?e' = Raise e => eexists; reflexivity
         | |- context [match data !! ?k with _ => _ end] => destruct (data !! k)
         | |- context [iloc_last ?s] => destruct (iloc_last s)
         | |- context [iloc_second_last ?s] => destruct (iloc_second_last s)
         | |- context [if ?b then _ else _] => destruct b
         end.
Qed.

End Signals.

(** X28. [check_signals] can never be run on the result of [analyze]: the
    dict that [analyze] builds has no ['close'] entry, which the Bollinger
    test reads, so the composition raises on every frame and with every
    indicator library. *)
Theorem check_signals_after_analyze_raises (ta : Indicators) (df : gmap string series) :
  match analyze ta df with
  | Ok data => data !! "close" = None /\ raises (check_signals data)
  | Raise _ => True
  end.
Proof.
  destruct (analyze ta df) as [data|e] eqn:Ha; [|exact I].
  assert (Hclose : data !! "close" = None).
  { unfold analyze in Ha.
    repeat (apply bind_Ok in Ha as (? & _ & Ha)).
    injection Ha as <-.
    rewrite !lookup_insert_ne by discriminate. apply lookup_empty. }
  split; [exact Hclose | now apply check_signals_needs_close].
Qed.

(** [analyze] does return when the frame has a ['close'] series and the
    indicator library answers. *)
Lemma analyze_returns_example :
  let ta := {| ta_rsi := fun s => Ok s; ta_macd_diff := fun s => Ok s;
               ta_bollinger_hband := fun s => Ok s; ta_bollinger_lband := fun s => Ok s;
               ta_rolling_mean := fun _ s => Ok s |} in
  exists data, analyze ta {[ "close" := [Fin 1; Fin 2] ]} = Ok data.
Proof. intros ta. eexists. vm_compute. reflexivity. Qed.

(** ** The Sharpe ratio of a steady curve *)

Section Steady.

Context `{Numpy}.



End Steady.


